(** * Verification pipeline: scoring engine, chunk codec, duplicate detector
      and orchestrator, embedded from the Python sources.

    Conventions of the embedding.
    - A Python [float] is a rational number ([Q]): every float constant of
      the source is the decimal it is written as, and the arithmetic is
      exact.  Python's [min]/[max] are written out with the comparison they
      perform, so the value they return is the argument Python returns.
    - A Python [int] is a [Z]; [bytes] is a [list byte].  A [str] that the
      code only compares, concatenates or passes on is a [string]; a [str]
      that it takes apart character by character is the list of its Unicode
      code points ([PyStr.str]).
    - A [dict] read with [.get(key, default)] is a record whose field is an
      [option]: [None] is the absent key.
    - A function that can raise returns a [result]. *)

From stdpp Require Import gmap strings list pretty sorting.
From Stdlib Require Import QArith Lqa.
From Stdlib.Strings Require Import Ascii Byte.

(** ** Exceptions and results *)

(** The exceptions the embedded code raises or catches. *)
Inductive exn :=
| ValueError (msg : string)
| TypeError (msg : string)
| KeyError (key : string)
| IndexError (msg : string)
| AttributeError (msg : string)
| ZeroDivisionError
| BinasciiError
| JSONDecodeError.

(** The outcome of a call: a value, or a raised exception. *)
Inductive result (A : Type) :=
| Ok (a : A)
| Raise (e : exn).
Arguments Ok {A} a.
Arguments Raise {A} e.

#[export] Instance result_ret : MRet result := fun A a => Ok a.
#[export] Instance result_bind : MBind result := fun A B k r =>
  match r with Ok a => k a | Raise e => Raise e end.

#[export] Instance result_fmap : FMap result := fun A B f r =>
  match r with Ok a => Ok (f a) | Raise e => Raise e end.

Definition is_ok {A} (r : result A) : bool :=
  match r with Ok _ => true | Raise _ => false end.

(** ** Numbers *)

Module PyNum.

(** [a <= b], [a < b] on floats, as booleans. *)
Definition leb (a b : Q) : bool := Qle_bool a b.
Definition ltb (a b : Q) : bool := negb (Qle_bool b a).

(** [min(a, b)]: Python returns [b] when [b < a], else [a]. *)
Definition min (a b : Q) : Q := if ltb b a then b else a.

(** [max(a, b)]: Python returns [b] when [b > a], else [a]. *)
Definition max (a b : Q) : Q := if ltb a b then b else a.

(** [a // b] on ints: floor division, [ZeroDivisionError] on a zero divisor.
    [Z.div] rounds towards minus infinity for either sign of [b], as [//]
    does. *)
Definition floordiv (a b : Z) : result Z :=
  if (b =? 0)%Z then Raise ZeroDivisionError else Ok (a / b)%Z.

(** [range(n)] *)
Definition range (n : Z) : list Z := Z.of_nat <$> seq 0 (Z.to_nat n).

(** [l[start:stop]] with int bounds: a negative bound counts from the end,
    and both are clamped to [0, len(l)]. *)
Definition slice {A} (l : list A) (start stop : Z) : list A :=
  let n := Z.of_nat (length l) in
  let clamp (i : Z) : Z :=
    if (i <? 0)%Z then Z.max (i + n) 0 else Z.min i n in
  let a := clamp start in
  let b := clamp stop in
  take (Z.to_nat (b - a)) (drop (Z.to_nat a) l).

(** [sorted(l, key=key)] on int keys.  Python's sort is stable; so is this
    insertion sort, which puts an element before the later elements of equal
    key. *)
Fixpoint insert_by {A} (key : A -> Z) (x : A) (l : list A) : list A :=
  match l with
  | [] => [x]
  | y :: r => if (key x <=? key y)%Z then x :: y :: r
              else y :: insert_by key x r
  end.

Fixpoint sorted {A} (key : A -> Z) (l : list A) : list A :=
  match l with
  | [] => []
  | x :: r => insert_by key x (sorted key r)
  end.

(** Ascending order of keys, the order [sorted] produces. *)
Definition key_le {A} (key : A -> Z) (a b : A) : Prop := (key a <= key b)%Z.

End PyNum.

(** ** Strings *)

Module PyStr.

(** A [str] as the sequence of its characters, each a Unicode code point. *)
Definition str : Type := list N.

(** The [str] of a literal whose characters are below U+0100. *)
Definition of_string (s : string) : str :=
  N_of_ascii <$> String.list_ascii_of_string s.

(** [c.isspace()], the characters [str.strip()] removes: U+0009-000D,
    U+001C-0020, U+0085, U+00A0, U+1680, U+2000-200A, U+2028, U+2029, U+202F,
    U+205F and U+3000. *)
Definition is_space (c : N) : bool :=
  ((9 <=? c) && (c <=? 13) || (28 <=? c) && (c <=? 32)
   || (c =? 133) || (c =? 160) || (c =? 5760)
   || (8192 <=? c) && (c <=? 8202)
   || (c =? 8232) || (c =? 8233) || (c =? 8239) || (c =? 8287)
   || (c =? 12288))%N.

Fixpoint lstrip (cs : str) : str :=
  match cs with
  | c :: r => if is_space c then lstrip r else cs
  | [] => []
  end.

(** [s.strip()] *)
Definition strip (cs : str) : str :=
  rev (lstrip (rev (lstrip cs))).

(** [s.startswith(prefix)] *)
Fixpoint startswith (cs prefix : str) : bool :=
  match prefix, cs with
  | [], _ => true
  | p :: pr, c :: r => N.eqb p c && startswith r pr
  | _ :: _, [] => false
  end.

Definition newline : N := 10.

(** [s.split('\n')]: always at least one piece. *)
Fixpoint split_lines (cs : str) : list str :=
  match cs with
  | [] => [[]]
  | c :: r =>
      match split_lines r with
      | l :: ls => if N.eqb c newline then [] :: l :: ls
                   else (c :: l) :: ls
      | [] => [[c]]
      end
  end.

(** ['\n'.join(lines)] *)
Fixpoint join_lines (ls : list str) : str :=
  match ls with
  | [] => []
  | [l] => l
  | l :: r => l ++ newline :: join_lines r
  end.

End PyStr.

(** ** base64 (Python standard library)

    [b64encode] is RFC 4648 with padding.  [b64decode] accepts the canonical
    text [b64encode] produces and raises [binascii.Error] on anything else;
    the library's decoder is more lenient on other text (it skips characters
    outside the alphabet), which the embedded code never feeds it. *)

Module Base64.
Local Open Scope N_scope.

Definition byte_of_N (n : N) : byte := byte_of_ascii (ascii_of_N n).

(** The alphabet [A-Za-z0-9+/], by sextet value. *)
Definition sextet_char (i : N) : ascii :=
  if i <? 26 then ascii_of_N (65 + i)
  else if i <? 52 then ascii_of_N (97 + (i - 26))
  else if i <? 62 then ascii_of_N (48 + (i - 52))
  else if i =? 62 then "+"%char
  else "/"%char.

Definition char_sextet (c : ascii) : option N :=
  let n := N_of_ascii c in
  if (65 <=? n) && (n <=? 90) then Some (n - 65)
  else if (97 <=? n) && (n <=? 122) then Some (n - 97 + 26)
  else if (48 <=? n) && (n <=? 57) then Some (n - 48 + 52)
  else if n =? 43 then Some 62
  else if n =? 47 then Some 63
  else None.

Definition pad : ascii := "="%char.

Fixpoint encode (bs : list byte) : list ascii :=
  match bs with
  | [] => []
  | [a] =>
      let n := to_N a * 16 in
      [sextet_char (n / 64); sextet_char (n mod 64); pad; pad]
  | [a; b] =>
      let n := (to_N a * 256 + to_N b) * 4 in
      [sextet_char (n / 4096); sextet_char (n / 64 mod 64);
       sextet_char (n mod 64); pad]
  | a :: b :: c :: rest =>
      let n := to_N a * 65536 + to_N b * 256 + to_N c in
      sextet_char (n / 262144) :: sextet_char (n / 4096 mod 64)
        :: sextet_char (n / 64 mod 64) :: sextet_char (n mod 64)
        :: encode rest
  end.

Definition is_pad (c : ascii) : bool := Ascii.eqb c pad.

Definition is_nil {A} (l : list A) : bool :=
  match l with [] => true | _ => false end.

Fixpoint decode (cs : list ascii) : option (list byte) :=
  match cs with
  | [] => Some []
  | c1 :: c2 :: c3 :: c4 :: rest =>
      if is_pad c4 && is_nil rest then
        if is_pad c3 then
          s1 ← char_sextet c1; s2 ← char_sextet c2;
          Some [byte_of_N ((s1 * 64 + s2) / 16)]
        else
          s1 ← char_sextet c1; s2 ← char_sextet c2; s3 ← char_sextet c3;
          let n := (s1 * 4096 + s2 * 64 + s3) / 4 in
          Some [byte_of_N (n / 256); byte_of_N (n mod 256)]
      else
        s1 ← char_sextet c1; s2 ← char_sextet c2; s3 ← char_sextet c3;
        s4 ← char_sextet c4;
        let n := s1 * 262144 + s2 * 4096 + s3 * 64 + s4 in
        tail ← decode rest;
        Some (byte_of_N (n / 65536) :: byte_of_N (n / 256 mod 256)
                :: byte_of_N (n mod 256) :: tail)
  | _ => None
  end.

(** [base64.b64encode(bs).decode('utf-8')] *)
Definition b64encode (bs : list byte) : string :=
  String.string_of_list_ascii (encode bs).

(** [base64.b64decode(s)] *)
Definition b64decode (s : string) : result (list byte) :=
  match decode (String.list_ascii_of_string s) with
  | Some bs => Ok bs
  | None => Raise BinasciiError
  end.

End Base64.

(** ** Scoring engine (backend/scoring_engine.py) *)

Module ScoringEngine.

Local Open Scope Q_scope.

(** The [signals] dict of [compute_composite_score] and [make_decision]. *)
Record signals := Signals {
  embedding_sim : option Q;
  ssim : option Q;
  pixel_diff_norm : option Q;
  vlm_work_completion_score : option Q;
  distance_m : option Q;
  manipulation_probability : option Q;
  recycled_flag : option bool;
  worker_present : option bool
}.

(** [self.weights] *)
Record weights := Weights {
  visual_similarity : Q;
  visual_diff : Q;
  vlm_quality : Q;
  spatial_proximity : Q;
  authenticity : Q;
  w_recycled_penalty : Q;
  w_manipulation_penalty : Q
}.

(** [self.thresholds] *)
Record thresholds := Thresholds {
  verified : Q;
  questionable : Q
}.

Record engine := Engine {
  eng_weights : weights;
  eng_thresholds : thresholds
}.

(** [ScoringEngine.__init__] *)
Definition init : engine :=
  Engine (Weights 0.35 0.20 0.20 0.10 0.10 (-0.5) (-0.3))
         (Thresholds 0.70 0.45).

(** [normalize(value, min_val, max_val)] *)
Definition normalize (value min_val max_val : Q) : Q :=
  if Qeq_bool max_val min_val then 0.5
  else
    let normalized := (value - min_val) / (max_val - min_val) in
    PyNum.max 0.0 (PyNum.min 1.0 normalized).

Record components := Components {
  visual_similarity_score : Q;
  visual_diff_score : Q;
  vlm_quality_score : Q;
  spatial_proximity_score : Q;
  authenticity_score : Q;
  recycled_penalty : Q;
  manipulation_penalty : Q
}.

Record score_data := ScoreData {
  composite_score : Q;
  score_components : components
}.

(** [compute_composite_score(signals)] *)
Definition compute_composite_score (self : engine) (s : signals) : score_data :=
  let w := eng_weights self in
  let embedding_sim := default 0.0 (embedding_sim s) in
  let ssim := default 0.0 (ssim s) in
  let pixel_diff_norm := default 1.0 (pixel_diff_norm s) in
  let vlm_score := default 1 (vlm_work_completion_score s) / 10.0 in
  let distance_m := default 1000 (distance_m s) in
  let manip_prob := default 0.0 (manipulation_probability s) in
  let recycled_flag := default false (recycled_flag s) in
  let worker_present := default false (worker_present s) in
  let visual_score := normalize embedding_sim 0.0 1.0 * visual_similarity w in
  let diff_score := normalize (1.0 - ssim) 0.0 1.0 * visual_diff w in
  let quality_score := vlm_score * vlm_quality w in
  let spatial_score :=
    if PyNum.leb distance_m 50 then spatial_proximity w else 0.0 in
  let authenticity_score := (1.0 - manip_prob) * authenticity w in
  let recycled_penalty :=
    if recycled_flag then w_recycled_penalty w else 0.0 in
  let manipulation_penalty :=
    if PyNum.leb 0.85 manip_prob then w_manipulation_penalty w else 0.0 in
  let composite_score :=
    visual_score + diff_score + quality_score +
    spatial_score + authenticity_score +
    recycled_penalty + manipulation_penalty in
  let composite_score := PyNum.max 0.0 (PyNum.min 1.0 composite_score) in
  ScoreData composite_score
    (Components visual_score diff_score quality_score spatial_score
       authenticity_score recycled_penalty manipulation_penalty).

Inductive decision := VERIFIED | QUESTIONABLE | REJECTED.

(** [make_decision(composite_score, signals)] *)
Definition make_decision (self : engine) (composite_score : Q) (s : signals)
  : decision :=
  let recycled_flag := default false (recycled_flag s) in
  let manip_prob := default 0.0 (manipulation_probability s) in
  let distance_m := default 0 (distance_m s) in
  if recycled_flag then REJECTED
  else if PyNum.leb 0.85 manip_prob then REJECTED
  else if PyNum.ltb 50 distance_m then REJECTED
  else if PyNum.leb (verified (eng_thresholds self)) composite_score
       then VERIFIED
  else if PyNum.leb (questionable (eng_thresholds self)) composite_score
       then QUESTIONABLE
  else REJECTED.

(** The three critical conditions of [make_decision], read off a signal
    set the way [make_decision] reads it. *)
Definition critical (s : signals) : Prop :=
  default false (recycled_flag s) = true
  \/ 0.85 <= default 0.0 (manipulation_probability s)
  \/ 50 < default 0 (distance_m s).

(** The signal dict [s] with one key rebound, as in [{**s, key: x}]. *)
Definition with_embedding_sim (s : signals) (x : Q) : signals :=
  Signals (Some x) (ssim s) (pixel_diff_norm s) (vlm_work_completion_score s)
    (distance_m s) (manipulation_probability s) (recycled_flag s)
    (worker_present s).

Definition with_ssim (s : signals) (x : Q) : signals :=
  Signals (embedding_sim s) (Some x) (pixel_diff_norm s)
    (vlm_work_completion_score s) (distance_m s) (manipulation_probability s)
    (recycled_flag s) (worker_present s).

Definition with_vlm_score (s : signals) (x : Q) : signals :=
  Signals (embedding_sim s) (ssim s) (pixel_diff_norm s) (Some x)
    (distance_m s) (manipulation_probability s) (recycled_flag s)
    (worker_present s).

Definition with_manip_prob (s : signals) (x : Q) : signals :=
  Signals (embedding_sim s) (ssim s) (pixel_diff_norm s)
    (vlm_work_completion_score s) (distance_m s) (Some x) (recycled_flag s)
    (worker_present s).

Definition score_of (s : signals) : Q :=
  composite_score (compute_composite_score init s).

End ScoringEngine.

(** ** Image libraries (PIL and imagehash), as an interface

    [hex_to_hash] and the subtraction of two hashes come from [imagehash];
    [phash] stands for [str(imagehash.phash(Image.open(BytesIO(b))))].  Each
    can raise.  The one fact about the library the code relies on and that is
    recorded here: the empty string is not a hash ([int('', 16)] raises). *)

Class ImageLib := {
  image_hash : Type;
  hex_to_hash : string -> result image_hash;
  hash_sub : image_hash -> image_hash -> result Z;
  phash : list byte -> result string;
  hex_to_hash_empty : is_ok (hex_to_hash "") = false
}.

(** An [ImageLib] for 8x8 hashes, to run the code on examples: a hash is
    the 64 bits of exactly 16 hexadecimal digits, and the fingerprint of an
    image is read off its first 8 bytes (an image shorter than that is
    unreadable). *)

Module Hex64.

Definition hex_digit (c : ascii) : option N :=
  let n := N_of_ascii c in
  (if (48 <=? n) && (n <=? 57) then Some (n - 48)
   else if (97 <=? n) && (n <=? 102) then Some (n - 87)
   else if (65 <=? n) && (n <=? 70) then Some (n - 55)
   else None)%N.

Definition nibble_bits (n : N) : list bool :=
  [N.testbit n 3; N.testbit n 2; N.testbit n 1; N.testbit n 0].

Definition hex_to_hash (s : string) : result (list bool) :=
  let cs := String.list_ascii_of_string s in
  if (length cs =? 16)%nat then
    match mapM hex_digit cs with
    | Some ds => Ok (ds ≫= nibble_bits)
    | None => Raise (ValueError "invalid literal for int() with base 16")
    end
  else Raise (ValueError "invalid literal for int() with base 16").

Fixpoint count_diff (h1 h2 : list bool) : Z :=
  match h1, h2 with
  | b1 :: r1, b2 :: r2 => ((if Bool.eqb b1 b2 then 0 else 1) + count_diff r1 r2)%Z
  | _, _ => 0%Z
  end.

Definition hash_sub (h1 h2 : list bool) : result Z :=
  if (length h1 =? length h2)%nat then Ok (count_diff h1 h2)
  else Raise (TypeError "ImageHashes must be of the same shape.").

Definition hex_char (n : N) : ascii :=
  (if n <? 10 then ascii_of_N (48 + n) else ascii_of_N (87 + n))%N.

Definition hex_of_byte (b : byte) : list ascii :=
  [hex_char (to_N b / 16); hex_char (to_N b mod 16)]%N.

Definition phash (image_bytes : list byte) : result string :=
  if (8 <=? length image_bytes)%nat
  then Ok (String.string_of_list_ascii (take 8 image_bytes ≫= hex_of_byte))
  else Raise (ValueError "cannot identify image file").

#[export] Instance lib : ImageLib := {
  image_hash := list bool;
  hex_to_hash := hex_to_hash;
  hash_sub := hash_sub;
  phash := phash;
  hex_to_hash_empty := eq_refl
}.

End Hex64.

(** ** JSON values ([json.loads] output, and the assessor's result dict) *)

Module Json.

(** A dict is its list of items; keys are distinct. *)
#[warnings="-register-all"]
Inductive json :=
| JNull
| JBool (b : bool)
| JNum (q : Q)
| JStr (s : string)
| JArr (items : list json)
| JObj (fields : list (string * json)).

Fixpoint assoc (key : string) (fields : list (string * json)) : option json :=
  match fields with
  | [] => None
  | (k, v) :: r => if String.eqb k key then Some v else assoc key r
  end.

(** [v[key]] with a string key *)
Definition getitem (v : json) (key : string) : result json :=
  match v with
  | JObj fields =>
      match assoc key fields with
      | Some x => Ok x
      | None => Raise (KeyError key)
      end
  | _ => Raise (TypeError "object is not subscriptable with a str key")
  end.

(** The value as an operand of [/ 10.0]: a number, or a bool (an int in
    Python); anything else is a [TypeError]. *)
Definition as_number (v : json) : result Q :=
  match v with
  | JNum q => Ok q
  | JBool b => Ok (if b then 1 else 0)%Q
  | _ => Raise (TypeError "unsupported operand type(s) for /")
  end.

End Json.

(** [str(e)] for the exceptions above. *)
Definition exn_str (e : exn) : string :=
  match e with
  | ValueError msg | TypeError msg | IndexError msg | AttributeError msg =>
      msg
  | KeyError key => "'" +:+ key +:+ "'"
  | ZeroDivisionError => "division by zero"
  | BinasciiError => "Incorrect padding"
  | JSONDecodeError => "Expecting value"
  end.

(** ** Semantic assessor (lib/vlm_verifier.py) *)

Module VLMVerifier.
Import Json.

(** The [metadata] dict handed to the assessor. *)
Record vlm_metadata := VlmMetadata {
  complaint_ts : option string;
  proof_ts : option string;
  vm_distance_m : Q;
  vm_embedding_sim : Q;
  vm_ssim : Q;
  vm_pixel_diff_norm : Q;
  manip_prob : Q;
  vm_recycled_flag : bool;
  vm_worker_present : bool;
  issue_type : string
}.

(** What [verify_with_vlm] sends: the prompt of [build_vlm_prompt] is a text
    rendering of exactly these arguments. *)
Record vlm_request := VlmRequest {
  before_image_b64 : string;
  after_image_b64 : string;
  req_metadata : vlm_metadata;
  few_shot_examples : list string
}.

(** What [client.chat.completions.create] does: raise, or return a response
    whose [choices[0].message.content] is a [str] or [None]. *)
Inductive assessor_reply :=
| CallRaised (msg : string)
| Content (content : option PyStr.str).

(** The dict returned from [except json.JSONDecodeError]. *)
Definition parse_default : json :=
  JObj [("visual_change_detected", JBool false);
        ("change_description", JStr "Error parsing VLM response");
        ("improvement_visible", JBool false);
        ("work_completion_score", JNum 1);
        ("issues_detected", JArr [JStr "VLM processing error"]);
        ("meets_standards", JBool false);
        ("manipulation_detected", JBool false);
        ("fraud_risk_score", JNum 0.5);
        ("recommendation", JStr "human_review");
        ("explanation",
         JStr "Failed to parse VLM output, requires manual review")].

(** The dict returned from [except Exception as e]. *)
Definition service_default (e : string) : json :=
  JObj [("visual_change_detected", JBool false);
        ("change_description", JStr "VLM error");
        ("improvement_visible", JBool false);
        ("work_completion_score", JNum 1);
        ("issues_detected", JArr [JStr "VLM service error"]);
        ("meets_standards", JBool false);
        ("manipulation_detected", JBool false);
        ("fraud_risk_score", JNum 0.5);
        ("recommendation", JStr "human_review");
        ("explanation", JStr ("VLM service error: " +:+ e))].

(** ['```'] *)
Definition fence : PyStr.str := [96; 96; 96]%N.

(** Lines 106-116: strip the content and remove a markdown code fence.
    [lines[-1]] raises [IndexError] when no line is left. *)
Definition clean_content (content : PyStr.str) : result PyStr.str :=
  let content := PyStr.strip content in
  if PyStr.startswith content fence then
    let lines := PyStr.split_lines content in
    let lines :=
      match lines with
      | l0 :: rest => if PyStr.startswith l0 fence then rest else lines
      | [] => lines
      end in
    match last lines with
    | None => Raise (IndexError "list index out of range")
    | Some l =>
        let lines :=
          if PyStr.startswith l fence then removelast lines else lines in
        Ok (PyStr.join_lines lines)
    end
  else Ok content.

Section WithClient.
(** [self.client.chat.completions.create] and [json.loads]. *)
Variable chat_completion : vlm_request -> assessor_reply.
Variable json_loads : PyStr.str -> result json.

(** [verify_with_vlm(before_image_b64, after_image_b64, metadata,
    few_shot_examples)] *)
Definition verify_with_vlm (before_image_b64 after_image_b64 : string)
    (metadata : vlm_metadata) (few_shot_examples : list string) : json :=
  let request :=
    VlmRequest before_image_b64 after_image_b64 metadata few_shot_examples in
  match chat_completion request with
  | CallRaised msg => service_default msg
  | Content None =>
      service_default "'NoneType' object has no attribute 'strip'"
  | Content (Some content) =>
      match clean_content content with
      | Raise e => service_default (exn_str e)
      | Ok content =>
          match json_loads content with
          | Ok vlm_result => vlm_result
          | Raise JSONDecodeError => parse_default
          | Raise e => service_default (exn_str e)
          end
      end
  end.

(** The ways the [try] block of [verify_with_vlm] can raise: the call
    raised, the response had no content, the fence removal ran out of lines,
    or [json.loads] raised.  These are the cases the two handlers answer; text
    that [json.loads] accepts is not among them, whatever it parses to. *)
Definition assessor_failed (request : vlm_request) : Prop :=
  match chat_completion request with
  | CallRaised _ => True
  | Content None => True
  | Content (Some content) =>
      match clean_content content with
      | Raise _ => True
      | Ok text => is_ok (json_loads text) = false
      end
  end.

End WithClient.

End VLMVerifier.

(** ** Image processor (lib/image_processor.py) *)

Module ImageProcessor.

(** A chunk dict.  [chunk_image] builds it with the three keys; the
    orchestrator rebuilds it from the store with [index] and [b64] only. *)
Record chunk := Chunk {
  index : Z;
  b64 : string;
  size : option Z
}.

Record image_processor := Build {
  chunk_size : Z
}.

(** [ImageProcessor.__init__] *)
Definition init : image_processor := Build (20 * 1024).

Section WithImageLib.
Context `{ImageLib}.

(** [compute_phash(image_bytes)] *)
Definition compute_phash (image_bytes : list byte) : string :=
  match phash image_bytes with
  | Ok s => s
  | Raise _ => ""
  end.

(** [hamming_distance(hash1, hash2)] *)
Definition hamming_distance (hash1 hash2 : string) : Z :=
  match h1 ← hex_to_hash hash1; h2 ← hex_to_hash hash2; hash_sub h1 h2 with
  | Ok d => d
  | Raise _ => 100
  end.

(** [is_duplicate(hash1, hash2, threshold)] *)
Definition is_duplicate (hash1 hash2 : string) (threshold : Q) : bool :=
  let distance := hamming_distance hash1 hash2 in
  let max_distance := 64%Z in
  let similarity := (1 - inject_Z distance / inject_Z max_distance)%Q in
  PyNum.leb threshold similarity.

End WithImageLib.

(** The default of [is_duplicate]'s [threshold] argument. *)
Definition default_threshold : Q := 0.90.

(** [chunk_image(image_bytes)] *)
Definition chunk_image (self : image_processor) (image_bytes : list byte)
  : result (list chunk) :=
  let total_size := Z.of_nat (length image_bytes) in
  num_chunks ← PyNum.floordiv (total_size + chunk_size self - 1)
                              (chunk_size self);
  Ok ((fun i =>
         let start := (i * chunk_size self)%Z in
         let end_ := Z.min (start + chunk_size self) total_size in
         let chunk := PyNum.slice image_bytes start end_ in
         let chunk_b64 := Base64.b64encode chunk in
         Chunk i chunk_b64 (Some (Z.of_nat (length chunk))))
      <$> PyNum.range num_chunks).

(** The loop of [reconstruct_image]: decode and append, chunk by chunk. *)
Fixpoint concat_chunks (image_bytes : list byte) (sorted_chunks : list chunk)
  : result (list byte) :=
  match sorted_chunks with
  | [] => Ok image_bytes
  | chunk :: rest =>
      chunk_bytes ← Base64.b64decode (b64 chunk);
      concat_chunks (image_bytes ++ chunk_bytes) rest
  end.

(** [reconstruct_image(chunks)] *)
Definition reconstruct_image (chunks : list chunk) : result (list byte) :=
  let sorted_chunks := PyNum.sorted index chunks in
  concat_chunks [] sorted_chunks.

(** *** Vocabulary for the statements about chunks *)

(** The payload and the dict of the chunk at position [k] of
    [chunk_image]'s output, and the number of chunks. *)
Definition window (cs : Z) (bs : list byte) (k : nat) : list byte :=
  take (Z.to_nat cs) (drop (k * Z.to_nat cs) bs).

Definition chunk_at (cs : Z) (bs : list byte) (k : nat) : chunk :=
  Chunk (Z.of_nat k) (Base64.b64encode (window cs bs k))
        (Some (Z.of_nat (length (window cs bs k)))).

Definition chunk_count (cs : Z) (bs : list byte) : nat :=
  Z.to_nat ((Z.of_nat (length bs) + cs - 1) / cs).

(** A chunk dict as [_reconstruct_full_image] builds it. *)
Definition chunk_of (part : Z * list byte) : chunk :=
  Chunk (fst part) (Base64.b64encode (snd part)) None.

(** Whether the indices [0 .. n-1] all occur among [n] chunks. *)
Definition covers_range (chunks : list chunk) : bool :=
  forallb (fun i => existsb (fun c => (index c =? i)%Z) chunks)
          (PyNum.range (Z.of_nat (length chunks))).

End ImageProcessor.

(** ** Evidence store (database/pinecone.py)

    The store is the remote index seen through [PineconeManager]: a finite
    map from index, namespace and id to the vector written last.  The three
    operations below are the calls as the index answers them.  A call can also
    fail on its way to the index; that is modelled in the pipeline, at the
    two places where the code handles it ([try_fetch], [try_query]). *)

Module Pinecone.
Import ScoringEngine Json.

(** The [VerificationReport] dict built by [verify_proof].  The explanation
    text, the timestamp and the latency (string formatting and the clock)
    are left out. *)
Record report := Report {
  r_proof_id : string;
  r_complaint_id : option string;
  verification_status : decision;
  distance_from_complaint_meters : Q;
  within_acceptable_radius : bool;
  validation_passed : bool;
  visual_change_detected : json;
  change_description : json;
  improvement_visible : json;
  work_completion_score : json;
  issues_detected : json;
  meets_standards : json;
  is_original_photo : bool;
  recycled_photo_detected : bool;
  manipulation_detected : bool;
  fraud_risk_score : json;
  scoring : score_data;
  vlm_explanation : json;
  recommendation : json;
  flagged_for_review : bool
}.

(** The metadata dicts the pipeline writes, one shape per collection.  A
    field that the pipeline reads with [.get] is an [option]. *)
Record complaint_meta := ComplaintMeta {
  c_complaint_id : string;
  c_media_id : string;
  c_ts_iso : option string;
  c_lat : Q;
  c_lon : Q;
  c_pHash : string;
  c_chunks : list string;
  c_thumb_chunk : string;
  c_issue_type : option string
}.

Record proof_meta := ProofMeta {
  p_proof_id : string;
  p_complaint_id : option string;
  p_worker_id : string;
  p_ts_iso : option string;
  p_lat : Q;
  p_lon : Q;
  p_pHash : string;
  p_chunks : list string;
  p_thumb_chunk : string;
  p_recycled_flag : option bool;
  p_size_bytes : Z
}.

Inductive metadata :=
| MChunk (chunk_index : Z) (bytes_len : Z) (b64 : string)
| MComplaint (m : complaint_meta)
| MProof (m : proof_meta)
| MPhash (phash : string) (proof_ids : list string) (last_seen : string)
| MAudit (full_report : report) (proof_id : string)
         (complaint_id : option string) (decision : decision)
| MReference (notes : option string).

(** A stored vector, as [fetch] and [query] hand it back. *)
Record vector_record := Vector {
  values : list Q;
  vec_metadata : metadata;
  score : option Q
}.

(** [m.get('complaint_id')] and the like: [None] when the key is absent. *)
Definition get_complaint_id (m : metadata) : option string :=
  match m with
  | MComplaint c => Some (c_complaint_id c)
  | MProof p => p_complaint_id p
  | MAudit _ _ cid _ => cid
  | _ => None
  end.

Definition get_ts_iso (m : metadata) : option string :=
  match m with
  | MComplaint c => c_ts_iso c
  | MProof p => p_ts_iso p
  | _ => None
  end.

Definition get_issue_type (m : metadata) : option string :=
  match m with MComplaint c => c_issue_type c | _ => None end.

Definition get_recycled_flag (m : metadata) : option bool :=
  match m with MProof p => p_recycled_flag p | _ => None end.

Definition get_phash (m : metadata) : option string :=
  match m with MPhash h _ _ => Some h | _ => None end.

Definition get_proof_ids (m : metadata) : option (list string) :=
  match m with MPhash _ ids _ => Some ids | _ => None end.

Definition get_notes (m : metadata) : option string :=
  match m with MReference n => n | _ => None end.

(** [m['thumb_chunk']] and the like: [KeyError] when the key is absent. *)
Definition item_thumb_chunk (m : metadata) : result string :=
  match m with
  | MComplaint c => Ok (c_thumb_chunk c)
  | MProof p => Ok (p_thumb_chunk p)
  | _ => Raise (KeyError "thumb_chunk")
  end.

Definition item_chunks (m : metadata) : result (list string) :=
  match m with
  | MComplaint c => Ok (c_chunks c)
  | MProof p => Ok (p_chunks p)
  | _ => Raise (KeyError "chunks")
  end.

Definition item_lat (m : metadata) : result Q :=
  match m with
  | MComplaint c => Ok (c_lat c)
  | MProof p => Ok (p_lat p)
  | _ => Raise (KeyError "lat")
  end.

Definition item_lon (m : metadata) : result Q :=
  match m with
  | MComplaint c => Ok (c_lon c)
  | MProof p => Ok (p_lon p)
  | _ => Raise (KeyError "lon")
  end.

Definition item_b64 (m : metadata) : result string :=
  match m with MChunk _ _ b => Ok b | _ => Raise (KeyError "b64") end.

Definition item_chunk_index (m : metadata) : result Z :=
  match m with MChunk i _ _ => Ok i | _ => Raise (KeyError "chunk_index") end.

(** The store: vectors by index name, namespace and id. *)
Abbreviation store := (gmap (string * string * string) vector_record).

(** [_build_index_map] *)
Definition index_map : list (string * (string * string)) :=
  [("complaints_before", ("complaints-before", ""));
   ("proofs", ("proofs", ""));
   ("verified_reference_pairs", ("proofs", "reference_pairs"));
   ("chunks", ("metadata-store", "chunks"));
   ("phash_index", ("metadata-store", "phash"));
   ("worker_traces", ("metadata-store", "worker_traces"));
   ("audits", ("metadata-store", "audits"))].

(** [_get_index_and_namespace(index_type)] *)
Definition get_index_and_namespace (index_type : string)
  : result (string * string) :=
  match list_find (fun e => String.eqb (fst e) index_type) index_map with
  | Some (_, (_, target)) => Ok target
  | None => Raise (ValueError ("Unknown index type: " +:+ index_type))
  end.

(** [upsert_vector(index_type, vector_id, vector, metadata)] *)
Definition upsert_vector (st : store) (index_type vector_id : string)
    (vector : list Q) (metadata : metadata) : result store :=
  '(index, namespace) ← get_index_and_namespace index_type;
  Ok (<[(index, namespace, vector_id) := Vector vector metadata None]> st).

(** [fetch_vector(index_type, vector_id)]: [None] when the id is absent. *)
Definition fetch_vector (st : store) (index_type vector_id : string)
  : result (option vector_record) :=
  '(index, namespace) ← get_index_and_namespace index_type;
  Ok (st !! (index, namespace, vector_id)).

(** [query_vectors(index_type, vector, top_k, filter_dict)]: the matches,
    at most [top_k] of the vectors of the collection that pass the filter
    [{'complaint_id': c}].  The ranking is the store's own. *)
Definition passes_filter (filter_dict : option (option string)) (v : vector_record)
  : bool :=
  match filter_dict with
  | None => true
  | Some wanted =>
      match wanted, get_complaint_id (vec_metadata v) with
      | Some c, Some c' => String.eqb c c'
      | _, _ => false
      end
  end.

Definition query_vectors (st : store) (index_type : string) (vector : list Q)
    (top_k : nat) (filter_dict : option (option string))
  : result (list vector_record) :=
  '(index, namespace) ← get_index_and_namespace index_type;
  Ok (take top_k
        (snd <$>
           filter (fun kv => fst (fst (fst kv)) = index
                             /\ snd (fst (fst kv)) = namespace
                             /\ passes_filter filter_dict (snd kv) = true)
                  (map_to_list st))).

End Pinecone.

(** ** Verification pipeline (lib/verification_pipeline.py) *)

Module Pipeline.
Import ScoringEngine Json VLMVerifier Pinecone ImageProcessor.

(** Calls to the two external models, in the order they are made. *)
Inductive event :=
| DetectManipulation (image_bytes : list byte)
| AssessorCall (request : vlm_request).

(** Everything a pipeline call can read or change. *)
Record world := World {
  pinecone : store;
  calls : list event;
  uuid_counter : nat
}.

(** The collaborators outside the repository's control flow: the models,
    the imaging libraries, trigonometry, [json.loads], [uuid.uuid4] and the
    connection to the store.  [get_clip_embedding] and [detect_manipulation]
    catch their own errors; [image_metrics] is the PIL/skimage computation
    inside [compute_image_similarity].

    The store is a remote index, and a call to it can fail.  Two store calls
    sit inside a [try] block, so that their failure is part of what the
    pipeline does: the lookup of the fingerprint entry in [ingest_proof]
    (lines 192-195) and the query for reference examples in [verify_proof]
    (lines 301-312).  [fetch_fails] and [query_fails] say, for the world in
    which the call is made and for its arguments, whether that call fails and
    with what error.  The other store calls are not guarded: a failure there
    ends the pipeline call with the client's error, and the runs described
    here are those in which they are answered. *)
Record services := Services {
  get_clip_embedding : list byte -> list Q;
  create_thumbnail : list byte -> result (list byte);
  image_metrics : list byte -> list byte -> result (Q * Q);
  haversine_distance : Q -> Q -> Q -> Q -> Q;
  detect_manipulation : list byte -> Q;
  chat_completion : vlm_request -> assessor_reply;
  json_loads : PyStr.str -> result json;
  uuid4 : nat -> string;
  fetch_fails : world -> string -> string -> option exn;
  query_fails : world -> string -> list Q -> option exn
}.

(** A pipeline step: it returns or raises, and leaves a world behind either
    way. *)
Definition pipe (A : Type) : Type := world -> result A * world.

#[export] Instance pipe_ret : MRet pipe := fun A a w => (Ok a, w).
#[export] Instance pipe_bind : MBind pipe := fun A B k m w =>
  match m w with
  | (Ok a, w') => k a w'
  | (Raise e, w') => (Raise e, w')
  end.

Definition lift {A} (r : result A) : pipe A := fun w => (r, w).

Definition throw {A} (e : exn) : pipe A := fun w => (Raise e, w).

(** [try: m  except: fallback] *)
Definition catch {A} (m : pipe A) (fallback : A) : pipe A := fun w =>
  match m w with
  | (Ok a, w') => (Ok a, w')
  | (Raise _, w') => (Ok fallback, w')
  end.

Definition log (e : event) : pipe unit := fun w =>
  (Ok (), World (pinecone w) (calls w ++ [e]) (uuid_counter w)).

Definition upsert (index_type vector_id : string) (vector : list Q)
    (metadata : metadata) : pipe unit := fun w =>
  match upsert_vector (pinecone w) index_type vector_id vector metadata with
  | Ok st => (Ok (), World st (calls w) (uuid_counter w))
  | Raise e => (Raise e, w)
  end.

Definition fetch (index_type vector_id : string) : pipe (option vector_record) :=
  fun w => (fetch_vector (pinecone w) index_type vector_id, w).

Definition query (index_type : string) (vector : list Q) (top_k : nat)
    (filter_dict : option (option string)) : pipe (list vector_record) :=
  fun w => (query_vectors (pinecone w) index_type vector top_k filter_dict, w).

(** [[0.001] + [0.0] * 511] *)
Definition metadata_vector : list Q := 0.001%Q :: replicate 511 0.0%Q.

(** [str(x)] of an optional string *)
Definition str_opt (x : option string) : string := default "None" x.

(** The result dict of the two ingestion calls. *)
Record ingest_result := IngestResult {
  ir_id : string;
  ir_media_id : option string;
  ir_status : string;
  ir_recycled_flag : option bool
}.

(** [compute_image_similarity]'s result dict. *)
Record similarity_metrics := SimilarityMetrics {
  sm_ssim : Q;
  sm_pixel_diff_norm : Q;
  sm_visual_change : bool
}.

(** The local variables of [verify_proof] once the evidence is gathered
    (after line 312). *)
Record evidence := Evidence {
  ev_complaint_id : option string;
  ev_proof_meta : metadata;
  ev_complaint_meta : metadata;
  ev_complaint_thumb_b64 : string;
  ev_proof_thumb_b64 : string;
  ev_embedding_sim : Q;
  ev_similarity_metrics : similarity_metrics;
  ev_distance_m : Q;
  ev_recycled_flag : bool;
  ev_manipulation_probability : Q;
  ev_few_shot_examples : list string
}.

Section WithServices.
Context `{ImageLib}.
Variable svc : services.

Definition fresh_uuid : pipe string := fun w =>
  (Ok (uuid4 svc (uuid_counter w)),
   World (pinecone w) (calls w) (S (uuid_counter w))).

(** [self.pinecone.fetch_vector(...)] and [self.pinecone.query_vectors(...)]
    where they stand inside a [try] block: the call fails, or is answered
    from the store. *)
Definition try_fetch (index_type vector_id : string)
  : pipe (option vector_record) := fun w =>
  match fetch_fails svc w index_type vector_id with
  | Some e => (Raise e, w)
  | None => fetch index_type vector_id w
  end.

Definition try_query (index_type : string) (vector : list Q) (top_k : nat)
    (filter_dict : option (option string)) : pipe (list vector_record) :=
  fun w =>
  match query_fails svc w index_type vector with
  | Some e => (Raise e, w)
  | None => query index_type vector top_k filter_dict w
  end.

(** [ImageProcessor.compute_image_similarity(img1_bytes, img2_bytes)] *)
Definition compute_image_similarity (img1_bytes img2_bytes : list byte)
  : similarity_metrics :=
  match image_metrics svc img1_bytes img2_bytes with
  | Ok (ssim_score, pixel_diff_norm) =>
      SimilarityMetrics ssim_score pixel_diff_norm
                        (PyNum.ltb 0.1 pixel_diff_norm)
  | Raise _ => SimilarityMetrics 0.0 1.0 true
  end.

(** The "Store chunks" loop of both ingestion calls. *)
Fixpoint store_chunks (prefix : string) (chunks : list chunk)
  : pipe (list string) :=
  match chunks with
  | [] => mret []
  | chunk :: rest =>
      let chunk_id := prefix +:+ "#chunk::" +:+ pretty (index chunk) in
      bytes_len ← lift (match size chunk with
                        | Some n => Ok n
                        | None => Raise (KeyError "size")
                        end);
      upsert "chunks" chunk_id metadata_vector
             (MChunk (index chunk) bytes_len (b64 chunk));;
      chunk_ids ← store_chunks prefix rest;
      mret (chunk_id :: chunk_ids)
  end.

(** [ingest_complaint(complaint_id, image_bytes, lat, lon, ts_iso,
    metadata)], with [metadata] being [{'issue_type': ...}] or [None]. *)
Definition ingest_complaint (complaint_id : string) (image_bytes : list byte)
    (lat lon : Q) (ts_iso : string) (issue_type : option string)
  : pipe ingest_result :=
  media_id ← fresh_uuid;
  let embedding := get_clip_embedding svc image_bytes in
  let phash := compute_phash image_bytes in
  thumbnail ← lift (create_thumbnail svc image_bytes);
  chunks ← lift (chunk_image ImageProcessor.init image_bytes);
  let vector_id := "complaint::" +:+ complaint_id +:+ "::media::" +:+ media_id in
  chunk_ids ← store_chunks vector_id chunks;
  let thumb_chunk_id := vector_id +:+ "#thumb" in
  let thumb_b64 := Base64.b64encode thumbnail in
  upsert "chunks" thumb_chunk_id metadata_vector
         (MChunk (-1) (Z.of_nat (length thumbnail)) thumb_b64);;
  let complaint_metadata :=
    ComplaintMeta complaint_id media_id (Some ts_iso) lat lon phash chunk_ids
                  thumb_chunk_id issue_type in
  upsert "complaints_before" vector_id embedding (MComplaint complaint_metadata);;
  mret (IngestResult complaint_id (Some media_id) "ingested" None).

(** Lines 188-220 of [ingest_proof]: "Update phash index". *)
Definition update_phash_index (phash proof_id ts_iso : string) : pipe unit :=
  let phash_vector_id := "phash::" +:+ phash in
  existing_phash_record ← catch (try_fetch "phash_index" phash_vector_id) None;
  match existing_phash_record with
  | Some existing =>
      let proof_ids := default [] (get_proof_ids (vec_metadata existing)) in
      let proof_ids := proof_ids ++ [proof_id] in
      upsert "phash_index" phash_vector_id metadata_vector
             (MPhash phash proof_ids ts_iso)
  | None =>
      upsert "phash_index" phash_vector_id metadata_vector
             (MPhash phash [proof_id] ts_iso)
  end.

(** [ingest_proof(proof_id, complaint_id, worker_id, image_bytes, lat, lon,
    ts_iso)] *)
Definition ingest_proof (proof_id complaint_id worker_id : string)
    (image_bytes : list byte) (lat lon : Q) (ts_iso : string)
  : pipe ingest_result :=
  let embedding := get_clip_embedding svc image_bytes in
  let phash := compute_phash image_bytes in
  thumbnail ← lift (create_thumbnail svc image_bytes);
  chunks ← lift (chunk_image ImageProcessor.init image_bytes);
  chunk_ids ← store_chunks ("proof::" +:+ proof_id) chunks;
  let thumb_chunk_id := "proof::" +:+ proof_id +:+ "#thumb" in
  let thumb_b64 := Base64.b64encode thumbnail in
  upsert "chunks" thumb_chunk_id metadata_vector
         (MChunk (-1) (Z.of_nat (length thumbnail)) thumb_b64);;
  phash_results ← query "phash_index" metadata_vector 100 None;
  let recycled_flag :=
    existsb (fun m =>
               let existing_phash := default "" (get_phash (vec_metadata m)) in
               is_duplicate phash existing_phash default_threshold)
            phash_results in
  let proof_metadata :=
    ProofMeta proof_id (Some complaint_id) worker_id (Some ts_iso) lat lon
              phash chunk_ids thumb_chunk_id (Some recycled_flag)
              (Z.of_nat (length image_bytes)) in
  upsert "proofs" ("proof::" +:+ proof_id) embedding (MProof proof_metadata);;
  update_phash_index phash proof_id ts_iso;;
  mret (IngestResult proof_id None "ingested" (Some recycled_flag)).

(** The loop of [_reconstruct_full_image]: an id the store does not hold is
    skipped. *)
Fixpoint fetch_chunks (chunk_ids : list string) : pipe (list chunk) :=
  match chunk_ids with
  | [] => mret []
  | chunk_id :: rest =>
      chunk_vector ← fetch "chunks" chunk_id;
      here ← match chunk_vector with
             | Some v =>
                 i ← lift (item_chunk_index (vec_metadata v));
                 b ← lift (item_b64 (vec_metadata v));
                 mret [Chunk i b None]
             | None => mret []
             end;
      more ← fetch_chunks rest;
      mret (here ++ more)
  end.

(** [_reconstruct_full_image(chunk_ids)] *)
Definition _reconstruct_full_image (chunk_ids : list string)
  : pipe (list byte) :=
  chunks ← fetch_chunks chunk_ids;
  lift (reconstruct_image chunks).

(** [x.metadata['b64']] on the result of a fetch that may be [None]. *)
Definition thumb_b64_of (chunk_vector : option vector_record) : result string :=
  match chunk_vector with
  | Some v => item_b64 (vec_metadata v)
  | None => Raise (AttributeError "'NoneType' object has no attribute 'metadata'")
  end.

(** [verify_proof], lines 290-297: "Check for manipulation (only if
    needed for efficiency)".  The value is
    [manipulation_result['manipulation_probability']]. *)
Definition check_manipulation (proof_meta : metadata) (recycled_flag : bool)
    (distance_m : Q) : pipe Q :=
  if recycled_flag || PyNum.ltb 50 distance_m then
    chunk_ids ← lift (item_chunks proof_meta);
    full_image_bytes ← _reconstruct_full_image chunk_ids;
    log (DetectManipulation full_image_bytes);;
    mret (detect_manipulation svc full_image_bytes)
  else mret 0.0%Q.

(** [verify_proof], lines 239-312: resolve the records and gather the
    signals. *)
Definition collect_evidence (proof_id : string) : pipe evidence :=
  proof_vector ← fetch "proofs" ("proof::" +:+ proof_id);
  match proof_vector with
  | None => throw (ValueError ("Proof " +:+ proof_id +:+ " not found"))
  | Some proof_vector =>
  let proof_meta := vec_metadata proof_vector in
  let complaint_id := get_complaint_id proof_meta in
  complaint_results ← query "complaints_before" metadata_vector 1
                            (Some complaint_id);
  match complaint_results with
  | [] => throw (ValueError ("Complaint " +:+ str_opt complaint_id
                              +:+ " not found"))
  | complaint_match :: _ =>
  let complaint_meta := vec_metadata complaint_match in
  proof_thumb_id ← lift (item_thumb_chunk proof_meta);
  proof_thumb_chunk ← fetch "chunks" proof_thumb_id;
  complaint_thumb_id ← lift (item_thumb_chunk complaint_meta);
  complaint_thumb_chunk ← fetch "chunks" complaint_thumb_id;
  proof_thumb_b64 ← lift (thumb_b64_of proof_thumb_chunk);
  complaint_thumb_b64 ← lift (thumb_b64_of complaint_thumb_chunk);
  proof_thumb_bytes ← lift (Base64.b64decode proof_thumb_b64);
  complaint_thumb_bytes ← lift (Base64.b64decode complaint_thumb_b64);
  let embedding_sim := (1.0 - default 0.5 (score proof_vector))%Q in
  let similarity_metrics :=
    compute_image_similarity complaint_thumb_bytes proof_thumb_bytes in
  lat1 ← lift (item_lat complaint_meta);
  lon1 ← lift (item_lon complaint_meta);
  lat2 ← lift (item_lat proof_meta);
  lon2 ← lift (item_lon proof_meta);
  let distance_m := haversine_distance svc lat1 lon1 lat2 lon2 in
  let recycled_flag := default false (get_recycled_flag proof_meta) in
  manipulation_probability ←
    check_manipulation proof_meta recycled_flag distance_m;
  few_shot_examples ←
    catch (ref_results ← try_query "verified_reference_pairs"
                                   (values proof_vector) 3 None;
           mret ((fun m => default "" (get_notes (vec_metadata m)))
                 <$> ref_results))
          [];
  mret (Evidence complaint_id proof_meta complaint_meta complaint_thumb_b64
          proof_thumb_b64 embedding_sim similarity_metrics distance_m
          recycled_flag manipulation_probability few_shot_examples)
  end end.

(** The [vlm_metadata] dict of [verify_proof]. *)
Definition vlm_metadata_of (ev : evidence) : vlm_metadata :=
  VlmMetadata (get_ts_iso (ev_complaint_meta ev))
              (get_ts_iso (ev_proof_meta ev))
              (ev_distance_m ev)
              (ev_embedding_sim ev)
              (sm_ssim (ev_similarity_metrics ev))
              (sm_pixel_diff_norm (ev_similarity_metrics ev))
              (ev_manipulation_probability ev)
              (ev_recycled_flag ev)
              true
              (default "general" (get_issue_type (ev_complaint_meta ev))).

(** The [scoring_signals] dict of [verify_proof]. *)
Definition scoring_signals_of (ev : evidence) (vlm_score : Q) : signals :=
  Signals (Some (ev_embedding_sim ev))
          (Some (sm_ssim (ev_similarity_metrics ev)))
          (Some (sm_pixel_diff_norm (ev_similarity_metrics ev)))
          (Some vlm_score)
          (Some (ev_distance_m ev))
          (Some (ev_manipulation_probability ev))
          (Some (ev_recycled_flag ev))
          (Some true).

(** [verify_proof], lines 314-417: assess, score, report and audit. *)
Definition assess_and_report (proof_id : string) (ev : evidence)
  : pipe report :=
  let vlm_metadata := vlm_metadata_of ev in
  log (AssessorCall (VlmRequest (ev_complaint_thumb_b64 ev)
                                (ev_proof_thumb_b64 ev) vlm_metadata
                                (ev_few_shot_examples ev)));;
  let vlm_result :=
    verify_with_vlm (chat_completion svc) (json_loads svc)
                    (ev_complaint_thumb_b64 ev) (ev_proof_thumb_b64 ev)
                    vlm_metadata (ev_few_shot_examples ev) in
  vlm_score_raw ← lift (getitem vlm_result "work_completion_score");
  vlm_score ← lift (as_number vlm_score_raw);
  let scoring_signals := scoring_signals_of ev vlm_score in
  let score_data := compute_composite_score ScoringEngine.init scoring_signals in
  let decision :=
    make_decision ScoringEngine.init (composite_score score_data)
                  scoring_signals in
  visual_change ← lift (getitem vlm_result "visual_change_detected");
  change_descr ← lift (getitem vlm_result "change_description");
  improvement ← lift (getitem vlm_result "improvement_visible");
  completion ← lift (getitem vlm_result "work_completion_score");
  issues ← lift (getitem vlm_result "issues_detected");
  standards ← lift (getitem vlm_result "meets_standards");
  fraud_risk ← lift (getitem vlm_result "fraud_risk_score");
  explanation ← lift (getitem vlm_result "explanation");
  recommend ← lift (getitem vlm_result "recommendation");
  let report :=
    Report proof_id (ev_complaint_id ev) decision
           (ev_distance_m ev)
           (PyNum.leb (ev_distance_m ev) 50)
           (PyNum.leb (ev_distance_m ev) 50)
           visual_change change_descr improvement completion issues standards
           (negb (ev_recycled_flag ev))
           (ev_recycled_flag ev)
           (PyNum.leb 0.85 (ev_manipulation_probability ev))
           fraud_risk score_data explanation recommend
           (match decision with QUESTIONABLE => true | _ => false end) in
  audit_id ← fresh_uuid;
  upsert "audits" ("audit::" +:+ audit_id) metadata_vector
         (MAudit report proof_id (ev_complaint_id ev) decision);;
  mret report.

(** [verify_proof(proof_id)] *)
Definition verify_proof (proof_id : string) : pipe report :=
  ev ← collect_evidence proof_id;
  assess_and_report proof_id ev.

End WithServices.

(** *** Vocabulary for the statements about runs *)

(** A step that leaves the world as it found it. *)
Definition quiet {A} (m : pipe A) : Prop := forall w, snd (m w) = w.

(** Two stores that agree outside the [chunks] namespace. *)
Definition outside_chunks_same (st st' : store) : Prop :=
  forall index namespace id,
    namespace <> "chunks" ->
    st' !! (index, namespace, id) = st !! (index, namespace, id).

End Pipeline.

(** ** Test doubles and a small world, to run the pipeline on examples *)

Module Demo.
Import ScoringEngine Json VLMVerifier Pinecone ImageProcessor Pipeline.

(** What a well-behaved assessor answers, already parsed. *)
Definition good_assessment : json :=
  JObj [("visual_change_detected", JBool true);
        ("change_description", JStr "waste removed");
        ("improvement_visible", JBool true);
        ("work_completion_score", JNum 9);
        ("issues_detected", JArr []);
        ("meets_standards", JBool true);
        ("manipulation_detected", JBool false);
        ("fraud_risk_score", JNum 0.1);
        ("recommendation", JStr "approve");
        ("explanation", JStr "the pile is gone")].

(** A [json.loads] that knows two texts: [GOOD] stands for the JSON text of
    [good_assessment], and [{}] is the empty object.  Every other text is
    malformed. *)
Definition json_loads (text : PyStr.str) : result json :=
  if bool_decide (text = PyStr.of_string "GOOD") then Ok good_assessment
  else if bool_decide (text = PyStr.of_string "{}") then Ok (JObj [])
  else Raise JSONDecodeError.

Definition Qabs (x : Q) : Q := if PyNum.ltb x 0 then (- x)%Q else x.

(** Services with fixed answers.  The distance stand-in is 100000 m per
    degree of latitude or longitude.  [store_down] says whether the guarded
    store calls fail. *)
Definition services_on (store_down : bool) (reply : assessor_reply)
  : services :=
  Services (fun _ => replicate 512 0.0%Q)
           (fun image_bytes => Hex64.phash image_bytes ≫= fun _ => Ok (take 8 image_bytes))
           (fun _ _ => Ok (0.1, 0.4)%Q)
           (fun lat1 lon1 lat2 lon2 =>
              (100000 * (Qabs (lat1 - lat2) + Qabs (lon1 - lon2)))%Q)
           (fun _ => 0.2%Q)
           (fun _ => reply)
           json_loads
           (fun n => "uuid-" +:+ pretty n)
           (fun _ _ _ =>
              if store_down then Some (ValueError "connection reset") else None)
           (fun _ _ _ =>
              if store_down then Some (ValueError "connection reset") else None).

Definition services_with (reply : assessor_reply) : services :=
  services_on false reply.

Definition svc : services :=
  services_with (Content (Some (PyStr.of_string "GOOD"))).

Definition empty_world : world := World ∅ [] 0.

Definition before_image : list byte :=
  [x11; x22; x33; x44; x55; x66; x77; x88; x01; x02].

(** The after image; its fingerprint is [a0b1c2d3e4f50617]. *)
Definition after_image : list byte :=
  [xa0; xb1; xc2; xd3; xe4; xf5; x06; x17; x09].

(** An image whose fingerprint differs from [after_image]'s in one bit. *)
Definition near_image : list byte :=
  [xa0; xb1; xc2; xd3; xe4; xf5; x06; x16; x0a; x0b].

(** The world after one complaint and one proof 11 m away. *)
Definition world1 : world :=
  snd (ingest_complaint (H := Hex64.lib) svc "C1" before_image
         37.7749 (-122.4194) "2025-08-08T10:00:00Z" (Some "waste") empty_world).

Definition world2 : world :=
  snd (ingest_proof (H := Hex64.lib) svc "P1" "C1" "W1" after_image
         37.77495 (-122.41946) "2025-08-08T12:00:00Z" world1).

(** A second proof for the same complaint, about 510 m away. *)
Definition world_far : world :=
  snd (ingest_proof (H := Hex64.lib) svc "PFAR" "C1" "W1" before_image
         37.78 (-122.4194) "2025-08-08T13:00:00Z" world2).

(** A proof whose complaint was never ingested. *)
Definition world_orphan : world :=
  snd (ingest_proof (H := Hex64.lib) svc "PORPHAN" "C404" "W1" before_image
         37.78 (-122.4194) "2025-08-08T13:00:00Z" world2).

(** The worlds are there to be evaluated, not unfolded in a proof. *)
#[global] Opaque world1 world2 world_far world_orphan.

(** Services whose guarded store calls fail. *)
Definition flaky_svc : services :=
  services_on true (Content (Some (PyStr.of_string "GOOD"))).

(** Services whose assessor answers with prose instead of JSON. *)
Definition bad_svc : services :=
  services_with (Content (Some (PyStr.of_string "I think it looks fine"))).

(** The evidence gathered for proof [P1]. *)
Definition evidence1 : result evidence := Eval vm_compute in
  fst (collect_evidence bad_svc "P1" world2).

(** What the verification of proof [P1] returns. *)
Definition report1 : result report := Eval vm_compute in
  fst (verify_proof svc "P1" world2).

End Demo.

(** ** Manipulation detector (backend/manipulation_detector.py)

    The array computations are the libraries': [ela_mean] stands for
    [np.mean(self.compute_ela(image_bytes))], the mean of an array of
    [uint8], and a loaded model for
    [np.var(self.model.predict(preprocess_input(...)))], which can raise. *)

Module ManipulationDetector.
Local Open Scope Q_scope.

Record manipulation_detector := Detector {
  model : option (list byte -> result Q);
  ela_mean : list byte -> Q
}.

(** [detect_manipulation_cnn(image_bytes)] *)
Definition detect_manipulation_cnn (self : manipulation_detector)
    (image_bytes : list byte) : Q :=
  match model self with
  | None => 0.1
  | Some feature_variance =>
      match feature_variance image_bytes with
      | Ok feature_variance => PyNum.min 1.0 (feature_variance / 100.0)
      | Raise _ => 0.1
      end
  end.

(** The dict [detect_manipulation] returns. *)
Record manipulation_result := ManipulationResult {
  manipulation_probability : Q;
  ela_score : Q;
  cnn_score : Q;
  is_manipulated : bool;
  ela_heatmap_available : bool
}.

(** [detect_manipulation(image_bytes)] *)
Definition detect_manipulation (self : manipulation_detector)
    (image_bytes : list byte) : manipulation_result :=
  let ela_score := ela_mean self image_bytes / 255.0 in
  let cnn_score := detect_manipulation_cnn self image_bytes in
  let composite_score := ela_score * 0.4 + cnn_score * 0.6 in
  let is_manipulated := PyNum.leb 0.85 composite_score in
  ManipulationResult composite_score ela_score cnn_score is_manipulated true.


End ManipulationDetector.

(** ** Vocabulary for the statements about the store and the report *)

Module Routing.
Import Pinecone.


End Routing.

Module ReportKeys.
End ReportKeys.

(** * Theorems *)

Module PyNumFacts.

Lemma leb_le a b : PyNum.leb a b = true <-> (a <= b)%Q.
Proof. apply Qle_bool_iff. Qed.

Lemma leb_gt a b : PyNum.leb a b = false <-> (b < a)%Q.
Proof.
  unfold PyNum.leb. split; intros H.
  - apply Qnot_le_lt. intros Hle. apply Qle_bool_iff in Hle. congruence.
  - destruct (Qle_bool a b) eqn:E; [|reflexivity].
    apply Qle_bool_iff in E. exfalso. apply (Qlt_not_le _ _ H E).
Qed.

Lemma ltb_lt a b : PyNum.ltb a b = true <-> (a < b)%Q.
Proof.
  unfold PyNum.ltb. rewrite negb_true_iff. apply leb_gt.
Qed.

Lemma ltb_ge a b : PyNum.ltb a b = false <-> (b <= a)%Q.
Proof.
  unfold PyNum.ltb. rewrite negb_false_iff. apply leb_le.
Qed.

End PyNumFacts.

(** Case analysis on every comparison in the goal, leaving the order facts
    as hypotheses for [lra]. *)
Ltac cmp_split c :=
  let E := fresh "E" in
  lazymatch c with
  | PyNum.ltb ?a ?b =>
      destruct c eqn:E; [apply PyNumFacts.ltb_lt in E | apply PyNumFacts.ltb_ge in E]
  | PyNum.leb ?a ?b =>
      destruct c eqn:E; [apply PyNumFacts.leb_le in E | apply PyNumFacts.leb_gt in E]
  end.

Ltac cmp_cases :=
  repeat match goal with
  | |- context [if ?c then _ else _] => cmp_split c
  | H : context [if ?c then _ else _] |- _ => cmp_split c
  end.

(** ** base64 round trip *)

Module Base64Facts.
Import Base64.
Local Open Scope N_scope.

#[local] Ltac Zify.zify_post_hook ::= Z.to_euclidean_division_equations.

(** Induction on a list three elements at a time, the way [encode] walks
    it. *)
Lemma list_ind3 {A} (P : list A -> Prop) :
  P [] -> (forall a, P [a]) -> (forall a b, P [a; b]) ->
  (forall a b c l, P l -> P (a :: b :: c :: l)) ->
  forall l, P l.
Proof.
  intros H0 H1 H2 H3.
  fix IH 1. intros [|a [|b [|c l]]];
    [apply H0 | apply H1 | apply H2 | apply H3, IH].
Qed.

Lemma byte_of_to_N (a : byte) : byte_of_N (to_N a) = a.
Proof.
  unfold byte_of_N. rewrite <- ascii_of_byte_via_N.
  apply byte_of_ascii_of_byte.
Qed.

Lemma sextet_table :
  forallb (fun i => match char_sextet (sextet_char i) with
                    | Some j => (j =? i) && negb (is_pad (sextet_char i))
                    | None => false
                    end)
          (map N.of_nat (seq 0 64)) = true.
Proof. vm_compute. reflexivity. Qed.

Lemma char_sextet_char (i : N) :
  i < 64 ->
  char_sextet (sextet_char i) = Some i /\ is_pad (sextet_char i) = false.
Proof.
  intros Hi.
  assert (Hin : In i (map N.of_nat (seq 0 64))).
  { apply in_map_iff. exists (N.to_nat i). split; [lia|].
    apply in_seq. lia. }
  pose proof (proj1 (forallb_forall _ _) sextet_table i Hin) as H.
  cbv beta in H.
  destruct (char_sextet (sextet_char i)) as [j|]; [|discriminate].
  apply andb_true_iff in H as [Hj Hp].
  apply N.eqb_eq in Hj. apply negb_true_iff in Hp. now subst.
Qed.

Lemma recombine (n : N) :
  n / 262144 * 262144 + n / 4096 mod 64 * 4096 + n / 64 mod 64 * 64
  + n mod 64 = n.
Proof. lia. Qed.

Lemma group1_arith (a : N) :
  a <= 255 ->
  let n := a * 16 in
  n / 64 < 64 /\ n mod 64 < 64 /\ (n / 64 * 64 + n mod 64) / 16 = a.
Proof. intros Ha n. subst n. lia. Qed.

Lemma group2_arith (a b : N) :
  a <= 255 -> b <= 255 ->
  let n := (a * 256 + b) * 4 in
  let m := (n / 4096 * 4096 + n / 64 mod 64 * 64 + n mod 64) / 4 in
  n / 4096 < 64 /\ n / 64 mod 64 < 64 /\ n mod 64 < 64
  /\ m / 256 = a /\ m mod 256 = b.
Proof.
  intros Ha Hb n m.
  assert (m = a * 256 + b) as ->.
  { subst m.
    assert (n / 4096 * 4096 + n / 64 mod 64 * 64 + n mod 64 = n) as ->
      by (clearbody n; lia).
    subst n. lia. }
  subst n. repeat split; lia.
Qed.

Lemma group3_arith (a b c : N) :
  a <= 255 -> b <= 255 -> c <= 255 ->
  let n := a * 65536 + b * 256 + c in
  let m := n / 262144 * 262144 + n / 4096 mod 64 * 4096
           + n / 64 mod 64 * 64 + n mod 64 in
  n / 262144 < 64 /\ n / 4096 mod 64 < 64 /\ n / 64 mod 64 < 64
  /\ n mod 64 < 64
  /\ m / 65536 = a /\ m / 256 mod 256 = b /\ m mod 256 = c.
Proof.
  intros Ha Hb Hc n m.
  assert (m = n) as -> by apply recombine.
  subst n. repeat split; lia.
Qed.

Lemma decode_encode (bs : list byte) : decode (encode bs) = Some bs.
Proof.
  induction bs as [|a|a b|a b c rest IH] using list_ind3.
  - reflexivity.
  - cbn [encode decode].
    destruct (group1_arith _ (to_N_bounded a)) as (B1 & B2 & Ea).
    destruct (char_sextet_char _ B1) as [E1 _].
    destruct (char_sextet_char _ B2) as [E2 _].
    change (is_pad pad) with true. cbn [andb is_nil].
    rewrite E1, E2. cbn [mbind option_bind].
    now rewrite Ea, byte_of_to_N.
  - cbn [encode decode].
    destruct (group2_arith _ _ (to_N_bounded a) (to_N_bounded b))
      as (B1 & B2 & B3 & Ea & Eb).
    destruct (char_sextet_char _ B1) as [E1 _].
    destruct (char_sextet_char _ B2) as [E2 _].
    destruct (char_sextet_char _ B3) as [E3 P3].
    change (is_pad pad) with true. cbn [andb is_nil].
    rewrite P3, E1, E2, E3. cbn [mbind option_bind].
    now rewrite Ea, Eb, !byte_of_to_N.
  - cbn [encode decode].
    destruct (group3_arith _ _ _ (to_N_bounded a) (to_N_bounded b)
                (to_N_bounded c)) as (B1 & B2 & B3 & B4 & Ea & Eb & Ec).
    destruct (char_sextet_char _ B1) as [E1 _].
    destruct (char_sextet_char _ B2) as [E2 _].
    destruct (char_sextet_char _ B3) as [E3 _].
    destruct (char_sextet_char _ B4) as [E4 P4].
    rewrite P4, E1, E2, E3, E4, IH. cbn [andb mbind option_bind].
    now rewrite Ea, Eb, Ec, !byte_of_to_N.
Qed.

(** Decoding an encoding gives the bytes back. *)
Lemma b64decode_b64encode (bs : list byte) : b64decode (b64encode bs) = Ok bs.
Proof.
  unfold b64decode, b64encode.
  now rewrite String.list_ascii_of_string_of_list_ascii, decode_encode.
Qed.

End Base64Facts.

(** ** Theorems on the scoring engine *)

Module ScoringFacts.
Import ScoringEngine.
Local Open Scope Q_scope.

Lemma normalize_unit_mono (x y : Q) :
  x <= y -> normalize x 0.0 1.0 <= normalize y 0.0 1.0.
Proof.
  intros Hxy. unfold normalize, PyNum.max, PyNum.min.
  change (Qeq_bool 1.0 0.0) with false. cbv iota.
  assert (Hx : (x - 0.0) / (1.0 - 0.0) == x) by (field).
  assert (Hy : (y - 0.0) / (1.0 - 0.0) == y) by (field).
  generalize dependent ((x - 0.0) / (1.0 - 0.0)).
  generalize dependent ((y - 0.0) / (1.0 - 0.0)).
  intros ny Hy nx Hx.
  cmp_cases; lra.
Qed.

(** The composite score grows when every scored input grows, the gates
    (distance, recycled flag) being the same on both sides. *)
Lemma composite_score_mono_joint (s s' : signals) :
  default 0.0 (embedding_sim s) <= default 0.0 (embedding_sim s') ->
  1.0 - default 0.0 (ssim s) <= 1.0 - default 0.0 (ssim s') ->
  default 1 (vlm_work_completion_score s)
    <= default 1 (vlm_work_completion_score s') ->
  1.0 - default 0.0 (manipulation_probability s)
    <= 1.0 - default 0.0 (manipulation_probability s') ->
  distance_m s = distance_m s' ->
  recycled_flag s = recycled_flag s' ->
  composite_score (compute_composite_score init s)
    <= composite_score (compute_composite_score init s').
Proof.
  intros He Hs Hv Hm Hd Hr.
  unfold compute_composite_score.
  cbn [composite_score init eng_weights visual_similarity visual_diff
       vlm_quality spatial_proximity authenticity w_recycled_penalty
       w_manipulation_penalty].
  rewrite <- Hd, <- Hr.
  pose proof (normalize_unit_mono _ _ He) as Hne.
  pose proof (normalize_unit_mono _ _ Hs) as Hns.
  set (ne := normalize (default 0.0 (embedding_sim s)) 0.0 1.0) in *.
  set (ne' := normalize (default 0.0 (embedding_sim s')) 0.0 1.0) in *.
  set (ns := normalize (1.0 - default 0.0 (ssim s)) 0.0 1.0) in *.
  set (ns' := normalize (1.0 - default 0.0 (ssim s')) 0.0 1.0) in *.
  set (v := default 1 (vlm_work_completion_score s)) in *.
  set (v' := default 1 (vlm_work_completion_score s')) in *.
  set (m := default 0.0 (manipulation_probability s)) in *.
  set (m' := default 0.0 (manipulation_probability s')) in *.
  set (sp := if PyNum.leb (default 1000 (distance_m s)) 50 then 0.10 else 0.0).
  assert (Hq : v / 10.0 == v * 0.1) by field.
  assert (Hq' : v' / 10.0 == v' * 0.1) by field.
  set (q := v / 10.0) in *. set (q' := v' / 10.0) in *.
  clearbody sp ne ne' ns ns' q q' m m'.
  destruct (default false (recycled_flag s));
    unfold PyNum.max, PyNum.min; cmp_cases; lra.
Qed.

(** C8. With the engine's weights and every other signal held fixed, the
    composite score is non-decreasing in [embedding_sim], in [1 - ssim], in
    [vlm_work_completion_score] and in [1 - manipulation_probability]; the
    last holds for any two probabilities, on either side of the 0.85
    penalty threshold. *)
Theorem composite_score_monotone (s : signals) (x y : Q) :
  (x <= y -> score_of (with_embedding_sim s x) <= score_of (with_embedding_sim s y))
  /\ (1 - x <= 1 - y -> score_of (with_ssim s x) <= score_of (with_ssim s y))
  /\ (x <= y -> score_of (with_vlm_score s x) <= score_of (with_vlm_score s y))
  /\ (1 - x <= 1 - y ->
      score_of (with_manip_prob s x) <= score_of (with_manip_prob s y)).
Proof.
  unfold score_of.
  repeat split; intros H; apply composite_score_mono_joint; simpl;
    try reflexivity; lra.
Qed.

Lemma composite_score_monotone_witness :
  let s := Signals (Some 1) (Some 0) None (Some 10) (Some 0) None
                   (Some false) (Some true) in
  1 - 0.85 <= 1 - 0.84
  /\ score_of (with_manip_prob s 0.85) <= score_of (with_manip_prob s 0.84)
  /\ score_of (with_embedding_sim s 0.2) <= score_of (with_embedding_sim s 0.6).
Proof.
  intros s.
  assert (Hm : 1 - 0.85 <= 1 - 0.84) by (unfold Qle; cbn; lia).
  split; [exact Hm|]. split.
  - exact (proj2 (proj2 (proj2 (composite_score_monotone s 0.85 0.84))) Hm).
  - apply (proj1 (composite_score_monotone s 0.2 0.6)). unfold Qle; cbn; lia.
Defined.

(** The penalty threshold is crossed upwards in score: a probability just
    under 0.85 scores strictly more than 0.85 itself. *)
Example composite_score_across_threshold :
  let s := Signals (Some 1) (Some 0) None (Some 10) (Some 0) None
                   (Some false) (Some true) in
  score_of (with_manip_prob s 0.85) == 0.565
  /\ score_of (with_manip_prob s 0.84) == 0.866.
Proof. split; vm_compute; reflexivity. Qed.

(** C1. Recycled evidence, manipulation probability at or above 0.85, or a
    distance beyond 50 m each force REJECTED whatever the composite score
    is; when none of the three holds the score alone decides: at least
    0.70 is VERIFIED, otherwise at least 0.45 is QUESTIONABLE, otherwise
    REJECTED. *)
Theorem make_decision_spec (score : Q) (s : signals) :
  (critical s -> make_decision init score s = REJECTED)
  /\ (~ critical s ->
      (0.70 <= score -> make_decision init score s = VERIFIED)
      /\ (0.45 <= score -> score < 0.70 ->
          make_decision init score s = QUESTIONABLE)
      /\ (score < 0.45 -> make_decision init score s = REJECTED)).
Proof.
  unfold critical, make_decision. cbn [init eng_thresholds verified questionable].
  destruct (default false (recycled_flag s)) eqn:Er.
  { split; [reflexivity|]. intros Hn. exfalso. apply Hn. now left. }
  split.
  - intros [H|[H|H]]; [discriminate| |].
    + apply PyNumFacts.leb_le in H. now rewrite H.
    + apply PyNumFacts.ltb_lt in H. rewrite H. now destruct (PyNum.leb _ _).
  - intros Hn.
    assert (Hm : PyNum.leb 0.85 (default 0.0 (manipulation_probability s)) = false).
    { apply PyNumFacts.leb_gt. apply Qnot_le_lt. intros H. apply Hn. right. now left. }
    assert (Hd : PyNum.ltb 50 (default 0 (distance_m s)) = false).
    { apply PyNumFacts.ltb_ge. apply Qnot_lt_le. intros H. apply Hn. right. now right. }
    rewrite Hm, Hd. repeat split; intros; cmp_cases; try reflexivity; lra.
Qed.

Lemma make_decision_spec_witness :
  let recycled :=
    Signals (Some 1) (Some 0) None (Some 10) (Some 11) (Some 0) (Some true)
            (Some true) in
  let clean :=
    Signals (Some 1) (Some 0) None (Some 10) (Some 11) (Some 0) (Some false)
            (Some true) in
  (critical recycled /\ 0.70 <= 1 /\ make_decision init 1 recycled = REJECTED)
  /\ (~ critical clean /\ make_decision init 0.70 clean = VERIFIED
      /\ make_decision init 0.45 clean = QUESTIONABLE
      /\ make_decision init 0.44 clean = REJECTED).
Proof.
  intros recycled clean. split.
  - assert (Hc : critical recycled) by (left; reflexivity).
    split; [exact Hc|]. split; [unfold Qle; cbn; lia|].
    exact (proj1 (make_decision_spec 1 recycled) Hc).
  - assert (Hn : ~ critical clean).
    { intros [H|[H|H]]; [discriminate H| |]; vm_compute in H;
        [exact (H eq_refl) | discriminate H]. }
    split; [exact Hn|].
    split; [|split].
    + apply (proj2 (make_decision_spec 0.70 clean) Hn). unfold Qle; cbn; lia.
    + apply (proj2 (make_decision_spec 0.45 clean) Hn);
        [unfold Qle | unfold Qlt]; cbn; lia.
    + apply (proj2 (make_decision_spec 0.44 clean) Hn). unfold Qlt; cbn; lia.
Defined.

(** A recycled photo with a perfect score, a proof 111 m away, and the
    three score bands. *)
Example make_decision_runs :
  let clean := Signals None None None None (Some 11) (Some 0) (Some false) None in
  let recycled := Signals None None None None (Some 11) (Some 0) (Some true) None in
  let far := Signals None None None None (Some 111) (Some 0) (Some false) None in
  let forged := Signals None None None None (Some 11) (Some 0.85) (Some false) None in
  make_decision init 1 recycled = REJECTED
  /\ make_decision init 1 far = REJECTED
  /\ make_decision init 1 forged = REJECTED
  /\ make_decision init 0.70 clean = VERIFIED
  /\ make_decision init 0.69 clean = QUESTIONABLE
  /\ make_decision init 0.45 clean = QUESTIONABLE
  /\ make_decision init 0.44 clean = REJECTED.
Proof. vm_compute. repeat split; reflexivity. Qed.

End ScoringFacts.

(** ** Theorems on the chunk codec *)

Module ChunkFacts.
Import ImageProcessor.

(** Sorting a list whose keys already count upwards leaves it as it is. *)
Lemma sorted_ascending {A} (key : A -> Z) (f : nat -> A) (a n : nat) :
  (forall k, key (f k) = Z.of_nat k) ->
  PyNum.sorted key (f <$> seq a n) = f <$> seq a n.
Proof.
  intros Hkey. revert a. induction n as [|n IH]; intros a; [reflexivity|].
  rewrite <- cons_seq, fmap_cons. cbn [PyNum.sorted]. rewrite IH.
  destruct n as [|n]; [reflexivity|].
  rewrite <- cons_seq, fmap_cons. cbn [PyNum.insert_by]. rewrite !Hkey.
  destruct (Z.leb_spec (Z.of_nat a) (Z.of_nat (S a))); [reflexivity|lia].
Qed.

(** The loop appends the decoded payloads, in list order. *)
Lemma concat_chunks_encoded {X} (mk : X -> chunk) (pl : X -> list byte)
    (acc : list byte) (xs : list X) :
  (forall x, b64 (mk x) = Base64.b64encode (pl x)) ->
  concat_chunks acc (mk <$> xs) = Ok (acc ++ concat (pl <$> xs)).
Proof.
  intros Hmk. revert acc.
  induction xs as [|x xs IH]; intros acc; cbn.
  - now rewrite app_nil_r.
  - rewrite Hmk, Base64Facts.b64decode_b64encode. cbn.
    rewrite IH. now rewrite <- app_assoc.
Qed.

(** Consecutive windows of width [c] tile a prefix. *)
Lemma concat_windows {A} (l : list A) (c n : nat) :
  concat ((fun i => take c (drop (i * c) l)) <$> seq 0 n) = take (n * c) l.
Proof.
  induction n as [|n IH]; [reflexivity|].
  rewrite seq_S, fmap_app, concat_app, IH. cbn.
  rewrite app_nil_r, take_take_drop. f_equal. lia.
Qed.

Lemma list_fmap_ext_in_seq {B} (f g : nat -> B) (n : nat) :
  (forall k, (k < n)%nat -> f k = g k) -> f <$> seq 0 n = g <$> seq 0 n.
Proof.
  intros Hfg. apply list_eq. intros i. rewrite !list_lookup_fmap.
  destruct (seq 0 n !! i) as [k|] eqn:E; [|reflexivity]. cbn.
  apply lookup_seq in E as [-> Hi]. f_equal. now apply Hfg.
Qed.

(** A slice inside the sequence is a window. *)
Lemma slice_window {A} (l : list A) (start width : Z) :
  (0 <= start <= Z.of_nat (length l))%Z -> (0 < width)%Z ->
  PyNum.slice l start (Z.min (start + width) (Z.of_nat (length l)))
  = take (Z.to_nat width) (drop (Z.to_nat start) l).
Proof.
  intros Hs Hw. unfold PyNum.slice.
  destruct (Z.ltb_spec start 0); [lia|].
  destruct (Z.ltb_spec (Z.min (start + width) (Z.of_nat (length l))) 0); [lia|].
  rewrite (Z.min_l start) by lia.
  rewrite (Z.min_l (Z.min _ _)) by lia.
  destruct (Z.le_ge_cases (start + width) (Z.of_nat (length l))) as [Hle|Hge].
  - rewrite Z.min_l by lia. f_equal. lia.
  - rewrite Z.min_r by lia.
    rewrite (take_ge _ (Z.to_nat width)) by (rewrite length_drop; lia).
    apply take_ge. rewrite length_drop. lia.
Qed.

Lemma chunk_count_bounds (cs : Z) (bs : list byte) :
  (0 < cs)%Z ->
  (Z.of_nat (length bs) <= Z.of_nat (chunk_count cs bs) * cs
   < Z.of_nat (length bs) + cs)%Z.
Proof.
  intros Hcs. unfold chunk_count.
  set (t := Z.of_nat (length bs)).
  assert (Ht : (0 <= t)%Z) by lia.
  pose proof (Z.mul_div_le (t + cs - 1) cs Hcs) as H1.
  pose proof (Z.mul_succ_div_gt (t + cs - 1) cs Hcs) as H2.
  assert (H0 : (0 <= (t + cs - 1) / cs)%Z) by (apply Z.div_pos; lia).
  rewrite Z2Nat.id by exact H0. lia.
Qed.

Lemma chunk_image_eq (cs : Z) (bs : list byte) :
  (0 < cs)%Z ->
  chunk_image (Build cs) bs = Ok (chunk_at cs bs <$> seq 0 (chunk_count cs bs)).
Proof.
  intros Hcs. unfold chunk_image, PyNum.floordiv. cbn [chunk_size].
  destruct (Z.eqb_spec cs 0) as [->|_]; [lia|]. cbn [mbind result_bind].
  f_equal. unfold PyNum.range. rewrite <- list_fmap_compose.
  fold (chunk_count cs bs).
  pose proof (chunk_count_bounds cs bs Hcs) as Hb.
  apply list_fmap_ext_in_seq. intros k Hk. cbn [compose].
  assert (Hlt : (Z.of_nat k * cs < Z.of_nat (length bs))%Z) by nia.
  unfold chunk_at, window.
  rewrite slice_window by lia.
  replace (Z.to_nat (Z.of_nat k * cs)) with (k * Z.to_nat cs)%nat by nia.
  reflexivity.
Qed.

Lemma reconstruct_chunk_image (cs : Z) (bs : list byte) :
  (0 < cs)%Z ->
  reconstruct_image (chunk_at cs bs <$> seq 0 (chunk_count cs bs)) = Ok bs.
Proof.
  intros Hcs. unfold reconstruct_image.
  rewrite sorted_ascending by reflexivity.
  rewrite (concat_chunks_encoded _ (window cs bs)) by reflexivity.
  cbn [app]. f_equal. unfold window. rewrite concat_windows.
  apply take_ge.
  pose proof (chunk_count_bounds cs bs Hcs). nia.
Qed.

(** C2. For a positive chunk size, [chunk_image] returns
    [ceil(len / chunk_size)] chunks (none for empty input); the chunk at
    position [k] has index [k] and carries, base64-encoded, the [chunk_size]
    bytes starting at offset [k * chunk_size], fewer only at the end of the
    input; every chunk but the last is full and none is empty; and
    [reconstruct_image] gives the original bytes back. *)
Theorem chunk_image_reconstruct_roundtrip (cs : Z) (bs : list byte) :
  (0 < cs)%Z ->
  exists chunks : list chunk,
    chunk_image (Build cs) bs = Ok chunks
    /\ (Z.of_nat (length bs) <= Z.of_nat (length chunks) * cs
        < Z.of_nat (length bs) + cs)%Z
    /\ (bs = [] -> chunks = [])
    /\ (forall (k : nat) (c : chunk), chunks !! k = Some c ->
        let payload := take (Z.to_nat cs) (drop (k * Z.to_nat cs) bs) in
        index c = Z.of_nat k
        /\ b64 c = Base64.b64encode payload
        /\ size c = Some (Z.of_nat (length payload))
        /\ (0 < Z.of_nat (length payload) <= cs)%Z
        /\ ((S k < length chunks)%nat -> Z.of_nat (length payload) = cs))
    /\ reconstruct_image chunks = Ok bs.
Proof.
  intros Hcs. exists (chunk_at cs bs <$> seq 0 (chunk_count cs bs)).
  pose proof (chunk_count_bounds cs bs Hcs) as Hb.
  split; [now apply chunk_image_eq|].
  rewrite length_fmap, length_seq.
  split; [exact Hb|].
  split.
  { intros ->. cbn [length] in Hb.
    replace (chunk_count cs []) with 0%nat by nia. reflexivity. }
  split; [|now apply reconstruct_chunk_image].
  intros k c Hk. rewrite list_lookup_fmap in Hk.
  destruct (seq 0 (chunk_count cs bs) !! k) as [k'|] eqn:E; [|discriminate].
  apply lookup_seq in E as [-> Hlt]. cbn in Hk. injection Hk as <-.
  cbn [index b64 size chunk_at]. unfold window.
  repeat split; rewrite ?length_take, ?length_drop; nia.
Qed.

Lemma chunk_image_reconstruct_roundtrip_witness :
  exists chunks : list chunk,
    chunk_image (Build 4) ["a"; "b"; "c"; "d"; "e"; "f"; "g"; "h"; "i"; "j"]%byte
    = Ok chunks
    /\ length chunks = 3%nat
    /\ reconstruct_image chunks
       = Ok ["a"; "b"; "c"; "d"; "e"; "f"; "g"; "h"; "i"; "j"]%byte.
Proof.
  destruct (chunk_image_reconstruct_roundtrip 4
              ["a"; "b"; "c"; "d"; "e"; "f"; "g"; "h"; "i"; "j"]%byte)
    as (chunks & Hc & Hn & _ & _ & Hr); [lia|].
  exists chunks. cbn [length] in Hn. repeat split; [exact Hc|lia|exact Hr].
Defined.

(** The same run, evaluated. *)
Example chunk_image_run :
  chunk_image (Build 4) ["a"; "b"; "c"; "d"; "e"; "f"; "g"; "h"; "i"; "j"]%byte
  = Ok [Chunk 0 "YWJjZA==" (Some 4%Z); Chunk 1 "ZWZnaA==" (Some 4%Z);
        Chunk 2 "aWo=" (Some 2%Z)].
Proof. vm_compute. reflexivity. Qed.

(** *** [sorted] *)

Lemma insert_by_fmap {A B} (key : B -> Z) (f : A -> B) (x : A) (l : list A) :
  PyNum.insert_by key (f x) (f <$> l) = f <$> PyNum.insert_by (key ∘ f) x l.
Proof.
  induction l as [|y l IH]; [reflexivity|].
  cbn. destruct (key (f x) <=? key (f y))%Z; [reflexivity|].
  cbn. f_equal. exact IH.
Qed.

Lemma sorted_fmap {A B} (key : B -> Z) (f : A -> B) (l : list A) :
  PyNum.sorted key (f <$> l) = f <$> PyNum.sorted (key ∘ f) l.
Proof.
  induction l as [|x l IH]; [reflexivity|].
  cbn. rewrite IH. apply insert_by_fmap.
Qed.

Lemma insert_by_perm {A} (key : A -> Z) (x : A) (l : list A) :
  PyNum.insert_by key x l ≡ₚ x :: l.
Proof.
  induction l as [|y l IH]; [reflexivity|].
  cbn. destruct (key x <=? key y)%Z; [reflexivity|].
  rewrite IH. apply Permutation_swap.
Qed.

Lemma sorted_perm {A} (key : A -> Z) (l : list A) : PyNum.sorted key l ≡ₚ l.
Proof.
  induction l as [|x l IH]; [reflexivity|].
  cbn. rewrite insert_by_perm. now rewrite IH.
Qed.

Lemma insert_by_sorted {A} (key : A -> Z) (x : A) (l : list A) :
  Sorted (PyNum.key_le key) l -> Sorted (PyNum.key_le key) (PyNum.insert_by key x l).
Proof.
  induction 1 as [|y l Hs IH Hhd]; cbn.
  - repeat constructor.
  - destruct (Z.leb_spec (key x) (key y)) as [Hle|Hgt].
    + constructor; [now constructor|]. now constructor.
    + constructor; [exact IH|].
      destruct Hhd as [|z l Hyz]; cbn.
      * constructor. unfold PyNum.key_le. lia.
      * destruct (Z.leb_spec (key x) (key z)); constructor;
          unfold PyNum.key_le in *; lia.
Qed.

Lemma sorted_sorted {A} (key : A -> Z) (l : list A) :
  Sorted (PyNum.key_le key) (PyNum.sorted key l).
Proof.
  induction l as [|x l IH]; cbn; [constructor|].
  now apply insert_by_sorted.
Qed.

(** *** [reconstruct_image] on any chunk list *)

(** The only exception [reconstruct_image] can raise is the decoder's. *)
Lemma concat_chunks_raise (acc : list byte) (chunks : list chunk) (e : exn) :
  concat_chunks acc chunks = Raise e -> e = BinasciiError.
Proof.
  revert acc. induction chunks as [|c chunks IH]; intros acc; cbn.
  - discriminate.
  - unfold Base64.b64decode.
    destruct (Base64.decode _); cbn; [apply IH|congruence].
Qed.

(** C7, as the code has it.  [reconstruct_image] checks nothing about the
    indices: whatever indices the chunks carry, contiguous or not, it returns
    the decoded payloads concatenated in ascending order of index; and the
    only error it can raise, on any chunk list, is the base64 decoder's. *)
Theorem reconstruct_image_unchecked (parts : list (Z * list byte)) :
  (exists ordered : list (Z * list byte),
      ordered ≡ₚ parts
      /\ Sorted (PyNum.key_le fst) ordered
      /\ reconstruct_image (chunk_of <$> parts)
         = Ok (concat (snd <$> ordered)))
  /\ (forall (chunks : list chunk) (e : exn),
        reconstruct_image chunks = Raise e -> e = BinasciiError).
Proof.
  split.
  - exists (PyNum.sorted fst parts).
    split; [apply sorted_perm|]. split; [apply sorted_sorted|].
    unfold reconstruct_image. rewrite sorted_fmap.
    change (index ∘ chunk_of) with (@fst Z (list byte)).
    now rewrite (concat_chunks_encoded chunk_of snd).
  - intros chunks e. apply concat_chunks_raise.
Qed.

(** C7 as specified does not hold: with index 1 missing between 0 and 2
    the bytes of the two chunks come back, in either list order, and no
    error. *)
Lemma reconstruct_image_gap_counterexample :
  covers_range [Chunk 0 "YWJjZA==" None; Chunk 2 "aWo=" None] = false
  /\ reconstruct_image [Chunk 2 "aWo=" None; Chunk 0 "YWJjZA==" None]
     = Ok ["a"; "b"; "c"; "d"; "i"; "j"]%byte
  /\ reconstruct_image [Chunk 0 "YWJjZA==" None; Chunk 2 "aWo=" None]
     = Ok ["a"; "b"; "c"; "d"; "i"; "j"]%byte.
Proof. vm_compute. repeat split; reflexivity. Qed.

End ChunkFacts.

(** ** Theorems on the duplicate detector *)

Module DuplicateFacts.
Import ImageProcessor.
Local Open Scope Q_scope.

Section WithImageLib.
Context `{ImageLib}.

Lemma is_duplicate_iff (h1 h2 : string) (t : Q) :
  is_duplicate h1 h2 t = true
  <-> t <= 1 - inject_Z (hamming_distance h1 h2) / inject_Z 64.
Proof. unfold is_duplicate. apply PyNumFacts.leb_le. Qed.

(** The similarity of two fingerprints at distance [d], as a fraction. *)
Lemma similarity_value (d : Z) :
  1 - inject_Z d / inject_Z 64 == inject_Z (64 - d) / 64.
Proof.
  unfold inject_Z, Qeq, Qminus, Qplus, Qopp, Qdiv, Qmult, Qinv. cbn. lia.
Qed.

Lemma default_threshold_cut (d : Z) :
  default_threshold <= 1 - inject_Z d / inject_Z 64 <-> (d <= 6)%Z.
Proof.
  unfold default_threshold, inject_Z, Qle, Qminus, Qplus, Qopp, Qdiv, Qmult,
    Qinv. cbn. lia.
Qed.

(** The cut at distance 6 does not depend on how 0.90 is rounded: any
    threshold above 57/64 and at most 58/64 gives it, and the double nearest
    to 0.90 lies between the two.  The similarity itself is a multiple of
    1/64, which binary floating point represents exactly. *)
Lemma threshold_cut_robust (d : Z) (t : Q) :
  57 # 64 < t -> t <= 58 # 64 ->
  (t <= 1 - inject_Z d / inject_Z 64 <-> (d <= 6)%Z).
Proof.
  intros Hlo Hhi. rewrite similarity_value.
  assert (Hd : inject_Z (64 - d) / 64 == inject_Z (64 - d) * (1 # 64))
    by (unfold Qdiv; reflexivity).
  rewrite Hd. split.
  - intros Ht.
    assert (Hlt : 57 # 64 < inject_Z (64 - d) * (1 # 64)) by lra.
    unfold Qlt, inject_Z, Qmult in Hlt. cbn in Hlt. lia.
  - intros Hle. apply Qle_trans with (58 # 64); [exact Hhi|].
    unfold Qle, inject_Z, Qmult. cbn. lia.
Qed.

End WithImageLib.

(** C3. [is_duplicate(h1, h2, t)] is true exactly when
    [1 - hamming_distance(h1, h2) / 64 >= t].  At the default threshold
    0.90 that is exactly when the distance is at most 6: fingerprints at
    distance 6 are duplicates, at distance 7 they are not. *)
Theorem is_duplicate_threshold `{ImageLib} (h1 h2 : string) (t : Q) :
  (is_duplicate h1 h2 t = true
   <-> t <= 1 - inject_Z (hamming_distance h1 h2) / inject_Z 64)
  /\ (is_duplicate h1 h2 default_threshold = true
      <-> (hamming_distance h1 h2 <= 6)%Z)
  /\ (hamming_distance h1 h2 = 6%Z ->
      is_duplicate h1 h2 default_threshold = true)
  /\ (hamming_distance h1 h2 = 7%Z ->
      is_duplicate h1 h2 default_threshold = false).
Proof.
  assert (Hcut : is_duplicate h1 h2 default_threshold = true
                 <-> (hamming_distance h1 h2 <= 6)%Z).
  { rewrite is_duplicate_iff. apply default_threshold_cut. }
  split; [apply is_duplicate_iff|]. split; [exact Hcut|]. split.
  - intros Hd. apply Hcut. lia.
  - intros Hd. apply not_true_is_false. rewrite Hcut. lia.
Qed.

Lemma is_duplicate_threshold_witness :
  hamming_distance (H := Hex64.lib) "00000000000000ff" "00000000000000c0" = 6%Z
  /\ is_duplicate (H := Hex64.lib) "00000000000000ff" "00000000000000c0"
       default_threshold = true
  /\ hamming_distance (H := Hex64.lib) "00000000000000ff" "0000000000000080" = 7%Z
  /\ is_duplicate (H := Hex64.lib) "00000000000000ff" "0000000000000080"
       default_threshold = false.
Proof.
  assert (H6 : hamming_distance (H := Hex64.lib)
                 "00000000000000ff" "00000000000000c0" = 6%Z)
    by (vm_compute; reflexivity).
  assert (H7 : hamming_distance (H := Hex64.lib)
                 "00000000000000ff" "0000000000000080" = 7%Z)
    by (vm_compute; reflexivity).
  split; [exact H6|]. split; [|split; [exact H7|]].
  - exact (proj1 (proj2 (proj2 (is_duplicate_threshold (H := Hex64.lib)
             "00000000000000ff" "00000000000000c0" default_threshold))) H6).
  - exact (proj2 (proj2 (proj2 (is_duplicate_threshold (H := Hex64.lib)
             "00000000000000ff" "0000000000000080" default_threshold))) H7).
Defined.

(** 64-bit fingerprints two, six and seven bits apart. *)
Example is_duplicate_at_6_and_7 :
  hamming_distance (H := Hex64.lib) "a0b1c2d3e4f50617" "a0b1c2d3e4f5063f" = 2%Z
  /\ hamming_distance (H := Hex64.lib) "00000000000000ff" "00000000000000c0" = 6%Z
  /\ is_duplicate (H := Hex64.lib) "00000000000000ff" "00000000000000c0"
       default_threshold = true
  /\ hamming_distance (H := Hex64.lib) "00000000000000ff" "0000000000000080" = 7%Z
  /\ is_duplicate (H := Hex64.lib) "00000000000000ff" "0000000000000080"
       default_threshold = false.
Proof. vm_compute. repeat split; reflexivity. Qed.

Section Unparseable.
Context `{ImageLib}.

Lemma is_duplicate_unparseable (t : Q) (h1 h2 : string) :
  0 <= t ->
  is_ok (hex_to_hash h1) = false \/ is_ok (hex_to_hash h2) = false ->
  hamming_distance h1 h2 = 100%Z /\ is_duplicate h1 h2 t = false.
Proof.
  intros Ht Hp.
  assert (Hd : hamming_distance h1 h2 = 100%Z).
  { unfold hamming_distance.
    destruct (hex_to_hash h1) as [x1|e1]; cbn.
    - destruct Hp as [Hp|Hp]; [discriminate|].
      destruct (hex_to_hash h2) as [x2|e2]; [discriminate|reflexivity].
    - reflexivity. }
  split; [exact Hd|].
  unfold is_duplicate. rewrite Hd. apply PyNumFacts.leb_gt.
  apply Qlt_le_trans with 0; [|exact Ht]. reflexivity.
Qed.

Lemma compute_phash_unreadable (image_bytes : list byte) :
  is_ok (phash image_bytes) = false -> compute_phash image_bytes = "".
Proof. unfold compute_phash. now destruct (phash image_bytes). Qed.

Lemma scan_unreadable (t : Q) (image_bytes : list byte)
    (stored : list string) :
  0 <= t ->
  is_ok (phash image_bytes) = false ->
  existsb (fun existing_phash =>
             is_duplicate (compute_phash image_bytes) existing_phash t)
          stored = false.
Proof.
  intros Ht Hp. rewrite (compute_phash_unreadable _ Hp).
  induction stored as [|h stored IH]; [reflexivity|].
  cbn [existsb]. rewrite IH.
  now rewrite (proj2 (is_duplicate_unparseable t "" h Ht
                        (or_introl hex_to_hash_empty))).
Qed.

End Unparseable.

(** C10. With a threshold of at least 0, a fingerprint string the library
    cannot parse on either side makes [hamming_distance] return 100 and
    [is_duplicate] return false; the empty string is such a string, and it is
    what [compute_phash] returns for an image the library cannot read, so
    the scan over stored fingerprints never finds such an image a
    duplicate. *)
Theorem unparseable_never_duplicate `{ImageLib} (t : Q) :
  0 <= t ->
  (forall h1 h2 : string,
      is_ok (hex_to_hash h1) = false \/ is_ok (hex_to_hash h2) = false ->
      hamming_distance h1 h2 = 100%Z /\ is_duplicate h1 h2 t = false)
  /\ (forall h : string,
        hamming_distance "" h = 100%Z /\ is_duplicate "" h t = false
        /\ hamming_distance h "" = 100%Z /\ is_duplicate h "" t = false)
  /\ (forall (image_bytes : list byte) (h : string),
        is_ok (phash image_bytes) = false ->
        compute_phash image_bytes = ""
        /\ is_duplicate (compute_phash image_bytes) h t = false
        /\ is_duplicate h (compute_phash image_bytes) t = false)
  /\ (forall (image_bytes : list byte) (stored : list string),
        is_ok (phash image_bytes) = false ->
        existsb (fun existing_phash =>
                   is_duplicate (compute_phash image_bytes) existing_phash t)
                stored = false).
Proof.
  intros Ht.
  pose proof hex_to_hash_empty as He.
  split; [intros h1 h2; now apply is_duplicate_unparseable|].
  split; [|split].
  - intros h.
    destruct (is_duplicate_unparseable t "" h Ht (or_introl He)) as [? ?].
    destruct (is_duplicate_unparseable t h "" Ht (or_intror He)) as [? ?].
    auto.
  - intros image_bytes h Hp. rewrite (compute_phash_unreadable _ Hp).
    split; [reflexivity|].
    split; apply is_duplicate_unparseable; auto.
  - intros image_bytes stored Hp. now apply scan_unreadable.
Qed.

Lemma unparseable_never_duplicate_witness :
  0 <= default_threshold
  /\ hamming_distance (H := Hex64.lib) "not-a-hash" "a0b1c2d3e4f50617" = 100%Z
  /\ is_duplicate (H := Hex64.lib) "not-a-hash" "a0b1c2d3e4f50617"
       default_threshold = false.
Proof.
  assert (Ht : 0 <= default_threshold) by (unfold Qle; cbn; lia).
  split; [exact Ht|].
  apply (proj1 (unparseable_never_duplicate (H := Hex64.lib)
                  default_threshold Ht)).
  left. vm_compute. reflexivity.
Defined.

End DuplicateFacts.

(** ** Theorems on the evidence store *)

Module PineconeFacts.
Import Pinecone.

Lemma fetch_vector_known (st : store) (index_type vector_id : string)
    (index namespace : string) :
  get_index_and_namespace index_type = Ok (index, namespace) ->
  fetch_vector st index_type vector_id = Ok (st !! (index, namespace, vector_id)).
Proof. intros E. unfold fetch_vector. now rewrite E. Qed.

Lemma upsert_vector_known (st : store) (index_type vector_id : string)
    (vector : list Q) (md : metadata) (index namespace : string) :
  get_index_and_namespace index_type = Ok (index, namespace) ->
  upsert_vector st index_type vector_id vector md
  = Ok (<[(index, namespace, vector_id) := Vector vector md None]> st).
Proof. intros E. unfold upsert_vector. now rewrite E. Qed.

Lemma filter_none {A} (P : A -> Prop) `{forall x, Decision (P x)}
    (l : list A) :
  (forall x, x ∈ l -> ~ P x) -> filter P l = [].
Proof.
  induction l as [|x l IH]; intros Hn; [reflexivity|].
  rewrite filter_cons_False by (apply Hn; left).
  apply IH. intros y Hy. apply Hn. now right.
Qed.

(** A query over a collection in which nothing passes the filter has no
    match. *)
Lemma query_vectors_no_match (st : store) (index_type : string)
    (vector : list Q) (top_k : nat) (filter_dict : option (option string))
    (index namespace : string) :
  get_index_and_namespace index_type = Ok (index, namespace) ->
  (forall id v, st !! (index, namespace, id) = Some v ->
                passes_filter filter_dict v = false) ->
  query_vectors st index_type vector top_k filter_dict = Ok [].
Proof.
  intros E Hnone. unfold query_vectors. rewrite E. cbn. f_equal.
  rewrite filter_none; [now destruct top_k|].
  intros [[[ix ns] id] v] Hin (Hix & Hns & Hpass). cbn in *. subst.
  apply elem_of_map_to_list in Hin.
  rewrite (Hnone _ _ Hin) in Hpass. discriminate.
Qed.

End PineconeFacts.

(** ** Theorems on the verification pipeline *)

Module PipelineFacts.
Import ScoringEngine Json VLMVerifier Pinecone ImageProcessor Pipeline.

(** How a bind runs. *)
Lemma bind_run {A B} (m : pipe A) (k : A -> pipe B) (w : world) :
  (m ≫= k) w
  = match m w with
    | (Ok a, w') => k a w'
    | (Raise e, w') => (Raise e, w')
    end.
Proof. reflexivity. Qed.

Lemma fetch_run (index_type vector_id index namespace : string) (w : world) :
  get_index_and_namespace index_type = Ok (index, namespace) ->
  fetch index_type vector_id w
  = (Ok (pinecone w !! (index, namespace, vector_id)), w).
Proof.
  intros E. unfold fetch. now rewrite (PineconeFacts.fetch_vector_known _ _ _ _ _ E).
Qed.

(** *** Steps that leave the world alone *)

Lemma quiet_lift {A} (r : result A) : quiet (lift r).
Proof. now intros w. Qed.

Lemma quiet_mret {A} (a : A) : quiet (mret a : pipe A).
Proof. now intros w. Qed.

Lemma quiet_throw {A} (e : exn) : quiet (throw e : pipe A).
Proof. now intros w. Qed.

Lemma quiet_fetch (index_type vector_id : string) :
  quiet (fetch index_type vector_id).
Proof. now intros w. Qed.

Lemma quiet_query (index_type : string) (vector : list Q) (top_k : nat)
    (filter_dict : option (option string)) :
  quiet (query index_type vector top_k filter_dict).
Proof. now intros w. Qed.

Lemma quiet_bind {A B} (m : pipe A) (k : A -> pipe B) :
  quiet m -> (forall a, quiet (k a)) -> quiet (m ≫= k).
Proof.
  intros Hm Hk w. rewrite bind_run. specialize (Hm w).
  destruct (m w) as [[a|e] w1]; cbn in Hm; subst; [apply Hk|reflexivity].
Qed.

Lemma quiet_catch {A} (m : pipe A) (fallback : A) :
  quiet m -> quiet (catch m fallback).
Proof.
  intros Hm w. unfold catch. specialize (Hm w).
  now destruct (m w) as [[a|e] w1].
Qed.

Lemma quiet_try_fetch (svc : services) (index_type vector_id : string) :
  quiet (try_fetch svc index_type vector_id).
Proof. intros w. unfold try_fetch. now destruct (fetch_fails _ _ _ _). Qed.

Lemma quiet_try_query (svc : services) (index_type : string)
    (vector : list Q) (top_k : nat) (filter_dict : option (option string)) :
  quiet (try_query svc index_type vector top_k filter_dict).
Proof. intros w. unfold try_query. now destruct (query_fails _ _ _ _). Qed.

Create HintDb quiet.

(** A [try/except] block does not raise. *)
Lemma catch_ok {A} (m : pipe A) (fallback : A) (w : world) :
  fst (catch m fallback w)
  = Ok (match fst (m w) with Ok a => a | Raise _ => fallback end).
Proof. unfold catch. now destruct (m w) as [[a|e] w1]. Qed.

#[local] Hint Resolve quiet_lift quiet_mret quiet_throw quiet_fetch
  quiet_query quiet_try_fetch quiet_try_query quiet_catch : quiet.

Ltac quiet_tac :=
  repeat first
    [ apply quiet_bind; [|intros ?]
    | apply quiet_catch
    | solve [eauto with quiet]
    | match goal with
      | |- quiet (match ?x with _ => _ end) => destruct x
      end ].

Lemma quiet_fetch_chunks (chunk_ids : list string) :
  quiet (fetch_chunks chunk_ids).
Proof.
  induction chunk_ids as [|c r IH]; cbn [fetch_chunks]; [apply quiet_mret|].
  quiet_tac.
Qed.

Lemma quiet_reconstruct_full_image (chunk_ids : list string) :
  quiet (_reconstruct_full_image chunk_ids).
Proof.
  unfold _reconstruct_full_image.
  apply quiet_bind; [apply quiet_fetch_chunks|]. intros; apply quiet_lift.
Qed.

(** Running a bind whose first step is quiet. *)
Lemma bind_quiet_run {A B} (m : pipe A) (k : A -> pipe B) (w : world) :
  quiet m ->
  (m ≫= k) w
  = match fst (m w) with
    | Ok a => k a w
    | Raise e => (Raise e, w)
    end.
Proof.
  intros Hm. rewrite bind_run. specialize (Hm w).
  destruct (m w) as [[a|e] w1]; cbn in *; now subst.
Qed.

(** One quiet step of a run [H : (m ≫= k) w = (r, w')]: the step either
    raised, which ends the run in the same world, or returned. *)
Ltac quiet_step H tac :=
  rewrite bind_quiet_run in H by quiet_tac;
  cbn [fst lift fetch query throw] in H;
  lazymatch type of H with
  | match ?r with Ok _ => _ | Raise _ => _ end = _ =>
      let E := fresh "E" in
      destruct r eqn:E; [|injection H as <- <-; solve [tac]]
  | _ => idtac
  end.

(** The manipulation check: the estimator runs exactly when the flag is set
    or the distance exceeds 50, and otherwise the probability is 0. *)
Lemma check_manipulation_run (svc : services) (proof_meta : metadata)
    (recycled_flag : bool) (distance_m : Q) (w w' : world) (r : result Q) :
  check_manipulation svc proof_meta recycled_flag distance_m w = (r, w') ->
  pinecone w' = pinecone w /\ uuid_counter w' = uuid_counter w
  /\ match r with
     | Ok p =>
         if recycled_flag || PyNum.ltb 50 distance_m
         then exists image_bytes,
             calls w' = calls w ++ [DetectManipulation image_bytes]
             /\ p = detect_manipulation svc image_bytes
         else calls w' = calls w /\ p = 0.0%Q
     | Raise _ => calls w' = calls w
     end.
Proof.
  intros H. unfold check_manipulation in H.
  destruct (recycled_flag || PyNum.ltb 50 distance_m).
  - quiet_step H auto.
    rewrite bind_run in H.
    pose proof (quiet_reconstruct_full_image a w) as Hq.
    destruct (_reconstruct_full_image a w) as [[image_bytes|e] w1];
      cbn [snd] in Hq; subst w1.
    + injection H as <- <-. cbn. eauto.
    + injection H as <- <-. auto.
  - injection H as <- <-. auto.
Qed.

Lemma collect_evidence_calls (svc : services) (proof_id : string)
    (w w' : world) (r : result evidence) :
  collect_evidence svc proof_id w = (r, w') ->
  pinecone w' = pinecone w /\ uuid_counter w' = uuid_counter w
  /\ match r with
     | Ok ev =>
         (exists proof_vector,
             pinecone w !! ("proofs", "", "proof::" +:+ proof_id)
             = Some proof_vector
             /\ ev_proof_meta ev = vec_metadata proof_vector
             /\ ev_recycled_flag ev
                = default false (get_recycled_flag (vec_metadata proof_vector)))
         /\ if ev_recycled_flag ev || PyNum.ltb 50 (ev_distance_m ev)
            then exists image_bytes,
                calls w' = calls w ++ [DetectManipulation image_bytes]
                /\ ev_manipulation_probability ev
                   = detect_manipulation svc image_bytes
            else calls w' = calls w /\ ev_manipulation_probability ev = 0.0%Q
     | Raise _ => calls w' = calls w
     end.
Proof.
  intros H. unfold collect_evidence in H.
  quiet_step H auto.
  rewrite (PineconeFacts.fetch_vector_known _ _ _ "proofs" "") in E
    by reflexivity.
  injection E as <-.
  destruct (pinecone w !! _) as [proof_vector|] eqn:Hpv;
    [|injection H as <- <-; auto].
  quiet_step H auto.
  destruct a as [|complaint_match ?]; [injection H as <- <-; auto|].
  do 12 (quiet_step H auto).
  rewrite bind_run in H.
  destruct (check_manipulation _ _ _ _ w) as [[p|e] w1] eqn:Hgate;
    apply check_manipulation_run in Hgate as (Hst & Hid & Hcalls).
  2:{ injection H as <- <-. repeat split; assumption. }
  rewrite bind_quiet_run in H by quiet_tac.
  rewrite catch_ok in H. injection H as <- <-.
  cbn. split; [auto|]. split; [auto|]. split; [eauto|]. exact Hcalls.
Qed.

(** What [assess_and_report] does to the world, and what it reports. *)
Lemma assess_and_report_run (svc : services) (proof_id : string)
    (ev : evidence) (w w' : world) (r : result report) :
  assess_and_report svc proof_id ev w = (r, w') ->
  calls w'
  = calls w ++ [AssessorCall (VlmRequest (ev_complaint_thumb_b64 ev)
                                (ev_proof_thumb_b64 ev) (vlm_metadata_of ev)
                                (ev_few_shot_examples ev))]
  /\ match r with
     | Ok rep =>
         exists vlm_score : Q,
           scoring rep
           = compute_composite_score ScoringEngine.init
               (scoring_signals_of ev vlm_score)
           /\ verification_status rep
              = make_decision ScoringEngine.init
                  (composite_score (scoring rep))
                  (scoring_signals_of ev vlm_score)
           /\ recycled_photo_detected rep = ev_recycled_flag ev
           /\ distance_from_complaint_meters rep = ev_distance_m ev
           /\ pinecone w'
              = <[("metadata-store", "audits",
                   "audit::" +:+ uuid4 svc (uuid_counter w))
                  := Vector metadata_vector
                       (MAudit rep proof_id (ev_complaint_id ev)
                               (verification_status rep)) None]> (pinecone w)
     | Raise _ => pinecone w' = pinecone w
     end.
Proof.
  intros H. unfold assess_and_report in H.
  rewrite bind_run in H. unfold log at 1 in H. cbv beta iota in H.
  set (w1 := World (pinecone w) _ (uuid_counter w)) in H.
  assert (Hcalls : calls w1 = calls w ++ _) by reflexivity.
  assert (Hst : pinecone w1 = pinecone w) by reflexivity.
  assert (Hid : uuid_counter w1 = uuid_counter w) by reflexivity.
  clearbody w1.
  do 11 (quiet_step H auto).
  rewrite bind_run in H. unfold fresh_uuid at 1 in H. cbv beta iota in H.
  rewrite bind_run in H. unfold upsert at 1 in H.
  rewrite (PineconeFacts.upsert_vector_known _ _ _ _ _ "metadata-store" "audits")
    in H by reflexivity.
  cbv beta iota in H. unfold mret, pipe_ret in H.
  apply pair_equal_spec in H as [Hr Hw]. subst r w'.
  split; [exact Hcalls|]. exists a0.
  cbn [pinecone scoring verification_status recycled_photo_detected
       distance_from_complaint_meters uuid_counter].
  rewrite Hst, Hid. auto 6.
Qed.

(** C4. In a run of [verify_proof] that returns a report, the estimator is
    called exactly when the stored [recycled_flag] is true or the distance
    exceeds 50 m, once, on the reconstructed image and before the assessor;
    otherwise it is not called and the manipulation probability handed to
    the assessor, and scored, is 0. *)
Theorem manipulation_estimator_gate (svc : services) (proof_id : string)
    (w w' : world) (rep : report) :
  verify_proof svc proof_id w = (Ok rep, w') ->
  exists (proof_vector : vector_record) (request : vlm_request)
         (sig : signals),
    pinecone w !! ("proofs", "", "proof::" +:+ proof_id) = Some proof_vector
    /\ recycled_photo_detected rep
       = default false (get_recycled_flag (vec_metadata proof_vector))
    /\ scoring rep = compute_composite_score ScoringEngine.init sig
    /\ verification_status rep
       = make_decision ScoringEngine.init (composite_score (scoring rep)) sig
    /\ manipulation_probability sig = Some (manip_prob (req_metadata request))
    /\ distance_m sig = Some (distance_from_complaint_meters rep)
    /\ recycled_flag sig = Some (recycled_photo_detected rep)
    /\ ((recycled_photo_detected rep = true
         \/ (50 < distance_from_complaint_meters rep)%Q) ->
        exists image_bytes : list byte,
          calls w'
          = calls w ++ [DetectManipulation image_bytes; AssessorCall request]
          /\ manip_prob (req_metadata request)
             = detect_manipulation svc image_bytes)
    /\ (~ (recycled_photo_detected rep = true
           \/ (50 < distance_from_complaint_meters rep)%Q) ->
        calls w' = calls w ++ [AssessorCall request]
        /\ manip_prob (req_metadata request) = 0.0%Q).
Proof.
  intros H. unfold verify_proof in H. rewrite bind_run in H.
  destruct (collect_evidence svc proof_id w) as [[ev|e] w1] eqn:Hc;
    [|discriminate].
  apply collect_evidence_calls in Hc
    as (_ & _ & (pv & Hpv & _ & Hflag) & Hgate).
  apply assess_and_report_run in H
    as (Hcalls & vlm_score & Hs & Hd & Hr & Hdist & _).
  exists pv, (VlmRequest (ev_complaint_thumb_b64 ev) (ev_proof_thumb_b64 ev)
                (vlm_metadata_of ev) (ev_few_shot_examples ev)),
    (scoring_signals_of ev vlm_score).
  rewrite Hr, Hdist, <- Hflag.
  do 7 (split; [assumption || reflexivity|]).
  rewrite Hcalls. cbn [req_metadata vlm_metadata_of manip_prob].
  destruct (ev_recycled_flag ev || PyNum.ltb 50 (ev_distance_m ev)) eqn:Hg.
  - destruct Hgate as (image_bytes & Hlog & Hp). split.
    + intros _. exists image_bytes. rewrite Hlog, <- app_assoc. auto.
    + intros Hn. exfalso. apply Hn.
      apply orb_true_iff in Hg as [Hg|Hg]; [now left|right].
      now apply PyNumFacts.ltb_lt.
  - destruct Hgate as [Hlog Hp]. rewrite Hlog. split; [|auto].
    apply orb_false_iff in Hg as [Hg1 Hg2].
    intros [Hrec|Hfar]; [congruence|].
    apply PyNumFacts.ltb_lt in Hfar. congruence.
Qed.

(** *** The assessor's defaults *)

Lemma verify_with_vlm_failed (chat : vlm_request -> assessor_reply)
    (loads : PyStr.str -> result json) (before after : string)
    (md : vlm_metadata) (few : list string) :
  assessor_failed chat loads (VlmRequest before after md few) ->
  verify_with_vlm chat loads before after md few = parse_default
  \/ exists e, verify_with_vlm chat loads before after md few
               = service_default e.
Proof.
  unfold assessor_failed, verify_with_vlm.
  destruct (chat _) as [msg|[content|]]; [eauto| |eauto].
  destruct (clean_content content) as [text|e]; [|eauto].
  destruct (loads text) as [v|e]; [discriminate|].
  destruct e; eauto.
Qed.

(** When the assessor's dict has the fields the orchestrator reads, the
    second half of [verify_proof] returns a report that carries them. *)
Lemma assess_and_report_ok (svc : services) (proof_id : string)
    (ev : evidence) (w : world)
    (wcs vc cd iv isd ms fr ex rc : json) (v : Q) :
  let vlm_result :=
    verify_with_vlm (chat_completion svc) (json_loads svc)
      (ev_complaint_thumb_b64 ev) (ev_proof_thumb_b64 ev)
      (vlm_metadata_of ev) (ev_few_shot_examples ev) in
  getitem vlm_result "work_completion_score" = Ok wcs ->
  as_number wcs = Ok v ->
  getitem vlm_result "visual_change_detected" = Ok vc ->
  getitem vlm_result "change_description" = Ok cd ->
  getitem vlm_result "improvement_visible" = Ok iv ->
  getitem vlm_result "issues_detected" = Ok isd ->
  getitem vlm_result "meets_standards" = Ok ms ->
  getitem vlm_result "fraud_risk_score" = Ok fr ->
  getitem vlm_result "explanation" = Ok ex ->
  getitem vlm_result "recommendation" = Ok rc ->
  exists (rep : report) (w' : world),
    assess_and_report svc proof_id ev w = (Ok rep, w')
    /\ work_completion_score rep = wcs
    /\ recommendation rep = rc
    /\ vlm_explanation rep = ex.
Proof.
  intros vlm_result H1 H2 H3 H4 H5 H6 H7 H8 H9 H10.
  unfold assess_and_report. rewrite bind_run. unfold log at 1.
  cbv beta iota. fold vlm_result.
  repeat (rewrite bind_quiet_run by quiet_tac; cbn [fst lift];
          rewrite ?H1, ?H2, ?H3, ?H4, ?H5, ?H6, ?H7, ?H8, ?H9, ?H10).
  rewrite bind_run. unfold fresh_uuid at 1. cbv beta iota.
  rewrite bind_run. unfold upsert at 1.
  rewrite (PineconeFacts.upsert_vector_known _ _ _ _ _ "metadata-store" "audits")
    by reflexivity.
  cbv beta iota. unfold mret, pipe_ret.
  do 2 eexists. split; [reflexivity|]. cbn [work_completion_score recommendation vlm_explanation]. auto.
Qed.

(** A read of the assessor's dict that fails ends [verify_proof] with that
    error, before anything is written. *)
Lemma assess_and_report_raises (svc : services) (proof_id : string)
    (ev : evidence) (w : world) (e : exn) :
  getitem
    (verify_with_vlm (chat_completion svc) (json_loads svc)
       (ev_complaint_thumb_b64 ev) (ev_proof_thumb_b64 ev)
       (vlm_metadata_of ev) (ev_few_shot_examples ev))
    "work_completion_score" ≫= as_number = Raise e ->
  fst (assess_and_report svc proof_id ev w) = Raise e.
Proof.
  intros He. unfold assess_and_report.
  rewrite bind_run. unfold log at 1. cbv beta iota.
  rewrite bind_quiet_run by quiet_tac. cbn [fst lift].
  destruct (getitem _ "work_completion_score") as [wcs|e1];
    [|cbn in He; injection He as ->; reflexivity].
  cbn [mbind result_bind] in He.
  rewrite bind_quiet_run by quiet_tac. cbn [fst lift].
  now rewrite He.
Qed.

(** C5, as the code has it.  [verify_with_vlm] answers every failure of its
    [try] block with a conservative default dict and raises nothing: the dict
    of the [JSONDecodeError] handler when [json.loads] rejects the text, the
    dict of the general handler when the call raises, the response has no
    content or the fence removal runs out of lines.  Either has
    [work_completion_score] 1, [recommendation] "human_review" and an
    explanation that names the failure, and the orchestrator, once the evidence
    is gathered, finishes with a report that carries these values.  Text that
    [json.loads] accepts is returned as parsed, whatever its structure; when
    the value does not give a numeric [work_completion_score] the orchestrator
    raises the [KeyError] or [TypeError] of that read, returns no report and
    leaves the store as it was. *)
Theorem assessor_failure_degrades (svc : services) :
  (forall (before after : string) (md : vlm_metadata) (few : list string),
      let request := VlmRequest before after md few in
      let vlm_result :=
        verify_with_vlm (chat_completion svc) (json_loads svc)
                        before after md few in
      (forall content text,
          chat_completion svc request = Content (Some content) ->
          clean_content content = Ok text ->
          json_loads svc text = Raise JSONDecodeError ->
          vlm_result = parse_default)
      /\ (forall msg,
             chat_completion svc request = CallRaised msg ->
             vlm_result = service_default msg)
      /\ (assessor_failed (chat_completion svc) (json_loads svc) request ->
          getitem vlm_result "work_completion_score" = Ok (JNum 1)
          /\ getitem vlm_result "recommendation" = Ok (JStr "human_review")
          /\ exists note : string,
              getitem vlm_result "explanation" = Ok (JStr note)
              /\ (note = "Failed to parse VLM output, requires manual review"
                  \/ exists e, note = "VLM service error: " +:+ e))
      /\ (forall content text (parsed : json),
             chat_completion svc request = Content (Some content) ->
             clean_content content = Ok text ->
             json_loads svc text = Ok parsed ->
             vlm_result = parsed))
  /\ (forall (proof_id : string) (w w1 : world) (ev : evidence),
        collect_evidence svc proof_id w = (Ok ev, w1) ->
        assessor_failed (chat_completion svc) (json_loads svc)
          (VlmRequest (ev_complaint_thumb_b64 ev) (ev_proof_thumb_b64 ev)
             (vlm_metadata_of ev) (ev_few_shot_examples ev)) ->
        exists (rep : report) (w' : world),
          verify_proof svc proof_id w = (Ok rep, w')
          /\ work_completion_score rep = JNum 1
          /\ recommendation rep = JStr "human_review")
  /\ (forall (proof_id : string) (w w1 : world) (ev : evidence) (e : exn),
        collect_evidence svc proof_id w = (Ok ev, w1) ->
        getitem
          (verify_with_vlm (chat_completion svc) (json_loads svc)
             (ev_complaint_thumb_b64 ev) (ev_proof_thumb_b64 ev)
             (vlm_metadata_of ev) (ev_few_shot_examples ev))
          "work_completion_score" ≫= as_number = Raise e ->
        exists w' : world,
          verify_proof svc proof_id w = (Raise e, w')
          /\ pinecone w' = pinecone w).
Proof.
  split; [|split].
  - intros before after md few request vlm_result. split; [|split; [|split]].
    + intros content text Hc Ht Hl. unfold vlm_result, verify_with_vlm.
      fold request. now rewrite Hc, Ht, Hl.
    + intros msg Hc. unfold vlm_result, verify_with_vlm.
      fold request. now rewrite Hc.
    + intros Hf. apply verify_with_vlm_failed in Hf.
      fold vlm_result in Hf. destruct Hf as [->|[e ->]].
      * repeat split; try reflexivity. eexists. split; [reflexivity|auto].
      * repeat split; try reflexivity. eexists. split; [reflexivity|eauto].
    + intros content text parsed Hc Ht Hl. unfold vlm_result, verify_with_vlm.
      fold request. now rewrite Hc, Ht, Hl.
  - intros proof_id w w1 ev Hc Hf.
    unfold verify_proof. rewrite bind_run, Hc.
    apply verify_with_vlm_failed in Hf.
    destruct Hf as [Hv|[e Hv]].
    + destruct (assess_and_report_ok svc proof_id ev w1
                  (JNum 1) (JBool false) (JStr "Error parsing VLM response")
                  (JBool false) (JArr [JStr "VLM processing error"])
                  (JBool false) (JNum 0.5)
                  (JStr "Failed to parse VLM output, requires manual review")
                  (JStr "human_review") 1)
        as (rep & w' & Hrun & Hw & Hr & _); try (rewrite Hv; reflexivity).
      { reflexivity. }
      eauto.
    + destruct (assess_and_report_ok svc proof_id ev w1
                  (JNum 1) (JBool false) (JStr "VLM error")
                  (JBool false) (JArr [JStr "VLM service error"])
                  (JBool false) (JNum 0.5)
                  (JStr ("VLM service error: " +:+ e))
                  (JStr "human_review") 1)
        as (rep & w' & Hrun & Hw & Hr & _); try (rewrite Hv; reflexivity).
      { reflexivity. }
      eauto.
  - intros proof_id w w1 ev e Hc He.
    unfold verify_proof. rewrite bind_run, Hc.
    pose proof (assess_and_report_raises svc proof_id ev w1 e He) as Hr.
    destruct (assess_and_report svc proof_id ev w1) as [r w'] eqn:Ha.
    cbn [fst] in Hr. subst r. exists w'. split; [reflexivity|].
    apply assess_and_report_run in Ha as [_ Ha].
    apply collect_evidence_calls in Hc as (Hst & _). congruence.
Qed.

(** *** Ingestion and the fingerprint index *)

Lemma upsert_run (index_type vector_id index namespace : string)
    (vector : list Q) (md : metadata) (w : world) :
  get_index_and_namespace index_type = Ok (index, namespace) ->
  upsert index_type vector_id vector md w
  = (Ok (),
     World (<[(index, namespace, vector_id) := Vector vector md None]>
              (pinecone w))
           (calls w) (uuid_counter w)).
Proof.
  intros E. unfold upsert.
  now rewrite (PineconeFacts.upsert_vector_known _ _ _ _ _ _ _ E).
Qed.

Lemma store_chunks_run (prefix : string) (chunks : list chunk) (w : world) :
  Forall (fun c => is_Some (size c)) chunks ->
  exists (chunk_ids : list string) (st' : store),
    store_chunks prefix chunks w
    = (Ok chunk_ids, World st' (calls w) (uuid_counter w))
    /\ outside_chunks_same (pinecone w) st'.
Proof.
  intros Hsz. revert w.
  induction Hsz as [|c chunks [n Hn] _ IH]; intros w.
  - exists [], (pinecone w). split; [now destruct w|]. now intros ? ? ? ?.
  - cbn [store_chunks]. rewrite Hn.
    rewrite bind_quiet_run by quiet_tac. cbn [fst lift].
    rewrite bind_run, (upsert_run _ _ "metadata-store" "chunks") by reflexivity.
    cbv beta iota.
    set (w1 := World _ (calls w) (uuid_counter w)).
    destruct (IH w1) as (ids & st' & Hrun & Hsame).
    rewrite bind_run, Hrun. cbv beta iota.
    exists ((prefix +:+ "#chunk::" +:+ pretty (index c)) :: ids), st'.
    split; [reflexivity|].
    intros ix ns id Hns. rewrite Hsame by exact Hns.
    cbn [pinecone w1]. apply lookup_insert_ne. congruence.
Qed.

Lemma chunk_image_sizes (image_bytes : list byte) :
  exists chunks : list chunk,
    chunk_image ImageProcessor.init image_bytes = Ok chunks
    /\ Forall (fun c => is_Some (size c)) chunks.
Proof.
  eexists. split; [apply ChunkFacts.chunk_image_eq; reflexivity|].
  apply Forall_fmap, Forall_forall. intros k _. cbn. eauto.
Qed.

(** The index update on its own.  The guarded lookup hands on the entry
    under the key, or [None] when there is none or the call failed. *)
Lemma update_phash_index_run (svc : services) (phash proof_id ts_iso : string)
    (w : world) :
  update_phash_index svc phash proof_id ts_iso w
  = (Ok (),
     World (<[("metadata-store", "phash", "phash::" +:+ phash)
              := Vector metadata_vector
                   (MPhash phash
                      (match
                         match fetch_fails svc w "phash_index"
                                 ("phash::" +:+ phash) with
                         | Some _ => None
                         | None =>
                             pinecone w
                               !! ("metadata-store", "phash",
                                   "phash::" +:+ phash)
                         end
                       with
                       | Some existing =>
                           default [] (get_proof_ids (vec_metadata existing))
                           ++ [proof_id]
                       | None => [proof_id]
                       end)
                      ts_iso)
                   None]> (pinecone w))
           (calls w) (uuid_counter w)).
Proof.
  unfold update_phash_index.
  rewrite bind_quiet_run by quiet_tac. rewrite catch_ok.
  unfold try_fetch.
  destruct (fetch_fails svc w "phash_index" ("phash::" +:+ phash)) as [e|].
  - cbn [fst].
    now rewrite (upsert_run _ _ "metadata-store" "phash") by reflexivity.
  - rewrite (fetch_run _ _ "metadata-store" "phash") by reflexivity.
    cbn [fst].
    destruct (pinecone w !! _) as [existing|];
      now rewrite (upsert_run _ _ "metadata-store" "phash") by reflexivity.
Qed.

(** A whole run of [ingest_proof]: what it returns, the world [w1] in which
    it looks the fingerprint up, and what it leaves in the fingerprint
    index. *)
Lemma ingest_proof_run `{ImageLib} (svc : services)
    (proof_id complaint_id worker_id : string) (image_bytes : list byte)
    (lat lon : Q) (ts_iso : string) (w : world) (thumbnail : list byte) :
  create_thumbnail svc image_bytes = Ok thumbnail ->
  let phash := compute_phash image_bytes in
  exists (phash_results : list vector_record) (w1 w' : world),
    ingest_proof svc proof_id complaint_id worker_id image_bytes lat lon
                 ts_iso w
    = (Ok (IngestResult proof_id None "ingested"
             (Some (existsb
                      (fun m =>
                         is_duplicate phash
                           (default "" (get_phash (vec_metadata m)))
                           default_threshold)
                      phash_results))),
       w')
    /\ calls w1 = calls w
    /\ uuid_counter w1 = uuid_counter w
    /\ (forall id : string,
          pinecone w1 !! ("metadata-store", "phash", id)
          = pinecone w !! ("metadata-store", "phash", id))
    /\ (forall id : string,
          id <> "phash::" +:+ phash ->
          pinecone w' !! ("metadata-store", "phash", id)
          = pinecone w !! ("metadata-store", "phash", id))
    /\ pinecone w' !! ("metadata-store", "phash", "phash::" +:+ phash)
       = Some (Vector metadata_vector
                 (MPhash phash
                    (match
                       match fetch_fails svc w1 "phash_index"
                               ("phash::" +:+ phash) with
                       | Some _ => None
                       | None =>
                           pinecone w
                             !! ("metadata-store", "phash",
                                 "phash::" +:+ phash)
                       end
                     with
                     | Some existing =>
                         default [] (get_proof_ids (vec_metadata existing))
                         ++ [proof_id]
                     | None => [proof_id]
                     end)
                    ts_iso) None).
Proof.
  intros Hthumb phash. unfold ingest_proof. fold phash.
  rewrite bind_quiet_run by quiet_tac. cbn [fst lift]. rewrite Hthumb.
  destruct (chunk_image_sizes image_bytes) as (chunks & Hchunks & Hsz).
  rewrite bind_quiet_run by quiet_tac. cbn [fst lift]. rewrite Hchunks.
  destruct (store_chunks_run ("proof::" +:+ proof_id) chunks w Hsz)
    as (chunk_ids & st1 & Hstore & Hsame).
  rewrite bind_run, Hstore. cbv beta iota.
  rewrite bind_run, (upsert_run _ _ "metadata-store" "chunks") by reflexivity.
  cbv beta iota. cbn [pinecone calls uuid_counter].
  rewrite bind_quiet_run by quiet_tac. cbn [fst query].
  unfold query_vectors at 1.
  change (get_index_and_namespace "phash_index")
    with (@Ok (string * string) ("metadata-store", "phash")).
  cbn [mbind result_bind].
  rewrite bind_run, (upsert_run _ _ "proofs" "") by reflexivity.
  cbv beta iota. cbn [pinecone calls uuid_counter].
  rewrite bind_run.
  match goal with
  | |- context [update_phash_index _ _ _ _ ?w0] => set (w1 := w0)
  end.
  assert (Hold : forall id : string,
             pinecone w1 !! ("metadata-store", "phash", id)
             = pinecone w !! ("metadata-store", "phash", id)).
  { intros id. subst w1. cbn [pinecone].
    rewrite !lookup_insert_ne by congruence. apply Hsame. discriminate. }
  rewrite update_phash_index_run. cbv beta iota.
  unfold mret, pipe_ret.
  eexists _, w1, _. split; [reflexivity|]. cbn [pinecone].
  split; [reflexivity|]. split; [reflexivity|]. split; [exact Hold|].
  split.
  - intros id Hid. rewrite lookup_insert_ne by congruence. apply Hold.
  - rewrite lookup_insert_eq, Hold. reflexivity.
Qed.

(** C9, as the code has it.  When the thumbnail can be made, [ingest_proof]
    succeeds and updates the fingerprint index through one guarded lookup of
    the entry keyed by exactly the new proof's hash, made in a world [w1]
    whose index is the one [ingest_proof] found.  When the lookup returns an
    entry, the entry is rewritten with the new [proof_id] appended to its id
    list and [last_seen] set to the proof's timestamp.  When the lookup
    returns none, and also when the lookup fails, the entry under that key is
    written with only the new [proof_id]: a new key in the first case, and in
    the second whatever entry was there is replaced.  Every other index entry
    is as before.  Whether some existing entry is within the duplicate
    threshold plays no part. *)
Theorem ingest_proof_phash_index `{ImageLib} (svc : services)
    (proof_id complaint_id worker_id : string) (image_bytes : list byte)
    (lat lon : Q) (ts_iso : string) (w : world) (thumbnail : list byte) :
  create_thumbnail svc image_bytes = Ok thumbnail ->
  let phash := compute_phash image_bytes in
  exists (res : ingest_result) (w1 w' : world),
    ingest_proof svc proof_id complaint_id worker_id image_bytes lat lon
                 ts_iso w = (Ok res, w')
    /\ calls w1 = calls w
    /\ uuid_counter w1 = uuid_counter w
    /\ (forall id : string,
          pinecone w1 !! ("metadata-store", "phash", id)
          = pinecone w !! ("metadata-store", "phash", id))
    /\ (forall id : string,
          id <> "phash::" +:+ phash ->
          pinecone w' !! ("metadata-store", "phash", id)
          = pinecone w !! ("metadata-store", "phash", id))
    /\ (fetch_fails svc w1 "phash_index" ("phash::" +:+ phash) = None ->
        (forall existing : vector_record,
            pinecone w !! ("metadata-store", "phash", "phash::" +:+ phash)
            = Some existing ->
            pinecone w' !! ("metadata-store", "phash", "phash::" +:+ phash)
            = Some (Vector metadata_vector
                      (MPhash phash
                         (default [] (get_proof_ids (vec_metadata existing))
                          ++ [proof_id])
                         ts_iso) None))
        /\ (pinecone w !! ("metadata-store", "phash", "phash::" +:+ phash)
            = None ->
            pinecone w' !! ("metadata-store", "phash", "phash::" +:+ phash)
            = Some (Vector metadata_vector
                      (MPhash phash [proof_id] ts_iso) None)))
    /\ (forall e : exn,
          fetch_fails svc w1 "phash_index" ("phash::" +:+ phash) = Some e ->
          pinecone w' !! ("metadata-store", "phash", "phash::" +:+ phash)
          = Some (Vector metadata_vector
                    (MPhash phash [proof_id] ts_iso) None)).
Proof.
  intros Hthumb phash.
  destruct (ingest_proof_run svc proof_id complaint_id worker_id image_bytes
              lat lon ts_iso w thumbnail Hthumb)
    as (phash_results & w1 & w' & Hrun & Hc & Hu & Hidx & Hother & Hkey).
  fold phash in Hrun, Hother, Hkey.
  eexists. exists w1, w'. split; [exact Hrun|].
  do 4 (split; [assumption|]). split.
  - intros Hup. rewrite Hup in Hkey. split.
    + intros existing Hex. now rewrite Hkey, Hex.
    + intros Hnone. now rewrite Hkey, Hnone.
  - intros e Hdown. now rewrite Hkey, Hdown.
Qed.

(** C6. When the store holds no proof record for [proof_id], and likewise
    when it holds one but no complaint record passes the filter on its
    [complaint_id], [verify_proof] raises the not-found error (a
    [ValueError] whose message says which record was not found) and leaves
    the world as it was: no report is returned and no audit record, so no
    verdict, is written. *)
Theorem verify_proof_not_found (svc : services) (proof_id : string)
    (w : world) :
  (pinecone w !! ("proofs", "", "proof::" +:+ proof_id) = None ->
   verify_proof svc proof_id w
   = (Raise (ValueError ("Proof " +:+ proof_id +:+ " not found")), w))
  /\ (forall proof_vector : vector_record,
        pinecone w !! ("proofs", "", "proof::" +:+ proof_id)
        = Some proof_vector ->
        let complaint_id := get_complaint_id (vec_metadata proof_vector) in
        (forall id v, pinecone w !! ("complaints-before", "", id) = Some v ->
                      passes_filter (Some complaint_id) v = false) ->
        verify_proof svc proof_id w
        = (Raise (ValueError ("Complaint " +:+ str_opt complaint_id
                              +:+ " not found")), w)).
Proof.
  split.
  - intros Hnone. unfold verify_proof, collect_evidence.
    rewrite !bind_run. rewrite (fetch_run _ _ "proofs" "") by reflexivity.
    rewrite Hnone. reflexivity.
  - intros pv Hpv cid Hc. unfold verify_proof, collect_evidence.
    rewrite !bind_run. rewrite (fetch_run _ _ "proofs" "") by reflexivity.
    rewrite Hpv. rewrite bind_run. unfold query.
    rewrite (PineconeFacts.query_vectors_no_match _ _ _ _ _ "complaints-before" "")
      by (reflexivity || exact Hc).
    reflexivity.
Qed.

(** *** The pipeline on the demo world *)

Section Runs.
Import Demo.
Local Open Scope Q_scope.

Lemma manipulation_estimator_gate_witness :
  exists (rep : report) (w' : world) (request : vlm_request),
    verify_proof svc "P1" world2 = (Ok rep, w')
    /\ recycled_photo_detected rep = false
    /\ distance_from_complaint_meters rep == 11
    /\ calls w' = calls world2 ++ [AssessorCall request]
    /\ manip_prob (req_metadata request) = 0.0.
Proof.
  assert (Hfst : fst (verify_proof svc "P1" world2) = report1)
    by (vm_compute; reflexivity).
  unfold report1 in Hfst.
  pose proof (surjective_pairing (verify_proof svc "P1" world2)) as Hrun.
  rewrite Hfst in Hrun.
  destruct (manipulation_estimator_gate svc "P1" world2 _ _ Hrun)
    as (pv & request & sig & _ & _ & _ & _ & _ & _ & _ & _ & Hquiet).
  do 2 eexists. exists request.
  split; [exact Hrun|].
  split; [reflexivity|]. split; [reflexivity|].
  apply Hquiet. cbn [recycled_photo_detected distance_from_complaint_meters].
  intros [Hr|Hd]; [discriminate Hr|]. vm_compute in Hd. discriminate Hd.
Defined.

(** The same proof verified end to end: 11 m away, not recycled, so the
    estimator is not called, and the verdict is VERIFIED. *)
Example verify_near_proof :
  verification_status <$> fst (verify_proof svc "P1" world2) = Ok VERIFIED
  /\ length (calls (snd (verify_proof svc "P1" world2))) = 1%nat.
Proof. vm_compute. split; reflexivity. Qed.

(** A proof 510 m away: the estimator runs on the reconstructed image, then
    the assessor, and the verdict is REJECTED whatever the score. *)
Example verify_far_proof :
  verification_status <$> fst (verify_proof svc "PFAR" world_far) = Ok REJECTED
  /\ exists request,
      calls (snd (verify_proof svc "PFAR" world_far))
      = [DetectManipulation before_image; AssessorCall request]
      /\ manip_prob (req_metadata request) = 0.2.
Proof. vm_compute. split; [reflexivity|]. eexists. split; reflexivity. Qed.

(** An unknown proof id, and a proof whose complaint is unknown. *)
Lemma verify_proof_not_found_witness :
  verify_proof svc "NOPE" world2
  = (Raise (ValueError "Proof NOPE not found"), world2)
  /\ fst (verify_proof svc "PORPHAN" world_orphan)
     = Raise (ValueError "Complaint C404 not found").
Proof.
  split.
  - apply (proj1 (verify_proof_not_found svc "NOPE" world2)).
    vm_compute. reflexivity.
  - vm_compute. reflexivity.
Defined.

(** The orchestrator's reconstruction skips a chunk id the store does not
    hold: nothing checks that the chunk set is complete. *)
Example reconstruct_full_image_skips_missing :
  fst (_reconstruct_full_image ["proof::P1#chunk::7"; "proof::P1#chunk::0"]
         world2)
  = Ok after_image.
Proof. vm_compute. reflexivity. Qed.

Lemma assessor_failure_degrades_witness :
  exists (rep : report) (w' : world),
    verify_proof bad_svc "P1" world2 = (Ok rep, w')
    /\ work_completion_score rep = JNum 1
    /\ recommendation rep = JStr "human_review".
Proof.
  assert (Hfst : fst (collect_evidence bad_svc "P1" world2) = evidence1)
    by (vm_compute; reflexivity).
  unfold evidence1 in Hfst.
  pose proof (surjective_pairing (collect_evidence bad_svc "P1" world2)) as Hc.
  rewrite Hfst in Hc.
  apply (proj1 (proj2 (assessor_failure_degrades bad_svc)) "P1" world2 _ _ Hc).
  vm_compute. reflexivity.
Defined.

(** Malformed assessor text, a failed call and a bare code fence all end in
    a report that asks for human review. *)
Example verify_with_bad_assessor :
  recommendation
    <$> fst (verify_proof bad_svc "P1" world2) = Ok (JStr "human_review")
  /\ vlm_explanation
       <$> fst (verify_proof (services_with (CallRaised "timed out"))
                  "P1" world2)
     = Ok (JStr "VLM service error: timed out")
  /\ vlm_explanation
       <$> fst (verify_proof
                  (services_with (Content (Some (PyStr.of_string "```"))))
                  "P1" world2)
     = Ok (JStr "VLM service error: list index out of range").
Proof. vm_compute. repeat split; reflexivity. Qed.

(** The fence removal on a fenced answer with whitespace around it, a
    no-break space (U+00A0) and an em space (U+2003) included. *)
Example clean_fenced_content :
  clean_content
    ([160; 32]%N ++ PyStr.of_string "```json" ++ [PyStr.newline]
     ++ PyStr.of_string "GOOD" ++ [PyStr.newline]
     ++ PyStr.of_string "```" ++ [8195; 10]%N)
  = Ok (PyStr.of_string "GOOD").
Proof. vm_compute. reflexivity. Qed.

(** C5 as specified does not hold.  The assessor answers [{}]: text that
    [json.loads] accepts and that is not the expected structure.
    [verify_with_vlm] returns the empty dict, not the default record, and
    [verify_proof], with the evidence gathered, raises [KeyError] at its first
    read of the dict. *)
Lemma wrong_structure_raises_counterexample :
  let empty_object := services_with (Content (Some (PyStr.of_string "{}"))) in
  verify_with_vlm (chat_completion empty_object)
    (Pipeline.json_loads empty_object)
    "" "" (VlmMetadata None None 0 0 0 0 0 false true "general") []
  = JObj []
  /\ is_ok (fst (collect_evidence empty_object "P1" world2)) = true
  /\ fst (verify_proof empty_object "P1" world2)
     = Raise (KeyError "work_completion_score").
Proof. vm_compute. repeat split; reflexivity. Qed.

Lemma ingest_proof_phash_index_witness :
  create_thumbnail svc after_image = Ok (take 8 after_image)
  /\ exists (res : ingest_result) (w' : world),
      ingest_proof (H := Hex64.lib) svc "P2" "C1" "W2" after_image
        37.7749 (-122.4194) "2025-08-09T09:00:00Z" world2 = (Ok res, w')
      /\ pinecone w' !! ("metadata-store", "phash", "phash::a0b1c2d3e4f50617")
         = Some (Vector metadata_vector
                   (MPhash "a0b1c2d3e4f50617" ["P1"; "P2"]
                           "2025-08-09T09:00:00Z") None).
Proof.
  split; [reflexivity|].
  destruct (ingest_proof_phash_index (H := Hex64.lib) svc "P2" "C1" "W2"
              after_image 37.7749 (-122.4194) "2025-08-09T09:00:00Z" world2
              (take 8 after_image) eq_refl)
    as (res & w1 & w' & Hrun & _ & _ & _ & _ & Hup & _).
  exists res, w'. split; [exact Hrun|].
  change (compute_phash (H := Hex64.lib) after_image)
    with "a0b1c2d3e4f50617" in Hup.
  apply (proj1 (Hup eq_refl)
           (Vector metadata_vector
              (MPhash "a0b1c2d3e4f50617" ["P1"] "2025-08-08T12:00:00Z")
              None)).
  vm_compute. reflexivity.
Defined.

(** The same ingestion when the guarded lookup fails: the entry that held
    [P1] is replaced by one that holds only [P2]. *)
Example phash_entry_replaced_when_lookup_fails :
  get_proof_ids
    <$> (vec_metadata
           <$> pinecone world2
                 !! ("metadata-store", "phash", "phash::a0b1c2d3e4f50617"))
  = Some (Some ["P1"])
  /\ get_proof_ids
       <$> (vec_metadata
              <$> pinecone
                    (snd (ingest_proof (H := Hex64.lib) flaky_svc "P2" "C1"
                            "W2" after_image 37.7749 (-122.4194)
                            "2025-08-09T09:00:00Z" world2))
                    !! ("metadata-store", "phash", "phash::a0b1c2d3e4f50617"))
     = Some (Some ["P2"]).
Proof. vm_compute. split; reflexivity. Qed.

(** C9 as specified does not hold, in two places.  The index holds the
    fingerprint [a0b1c2d3e4f50617], last seen at 12:00 on 8 August.  A proof
    whose fingerprint differs from it in one bit is a duplicate of it (and is
    flagged recycled), and still gets an index key of its own.  And a proof
    with exactly that fingerprint and a timestamp of 1 August moves
    [last_seen] back to 1 August: the field is overwritten, not advanced. *)
Lemma phash_index_update_counterexample :
  let run := ingest_proof (H := Hex64.lib) svc "P2" "C1" "W2" near_image
               37.7749 (-122.4194) "2025-08-09T09:00:00Z" world2 in
  let late := ingest_proof (H := Hex64.lib) svc "P3" "C1" "W2" after_image
               37.7749 (-122.4194) "2025-08-01T09:00:00Z" world2 in
  compute_phash (H := Hex64.lib) near_image = "a0b1c2d3e4f50616"
  /\ vec_metadata
       <$> pinecone world2
             !! ("metadata-store", "phash", "phash::a0b1c2d3e4f50617")
     = Some (MPhash "a0b1c2d3e4f50617" ["P1"] "2025-08-08T12:00:00Z")
  /\ is_duplicate (H := Hex64.lib) "a0b1c2d3e4f50616" "a0b1c2d3e4f50617"
       default_threshold = true
  /\ pinecone world2 !! ("metadata-store", "phash", "phash::a0b1c2d3e4f50616")
     = None
  /\ fst run = Ok (IngestResult "P2" None "ingested" (Some true))
  /\ vec_metadata
       <$> pinecone (snd run)
             !! ("metadata-store", "phash", "phash::a0b1c2d3e4f50616")
     = Some (MPhash "a0b1c2d3e4f50616" ["P2"] "2025-08-09T09:00:00Z")
  /\ vec_metadata
       <$> pinecone (snd late)
             !! ("metadata-store", "phash", "phash::a0b1c2d3e4f50617")
     = Some (MPhash "a0b1c2d3e4f50617" ["P1"; "P3"] "2025-08-01T09:00:00Z")
  /\ String.ltb "2025-08-01T09:00:00Z" "2025-08-08T12:00:00Z" = true.
Proof. vm_compute. repeat split; reflexivity. Qed.

End Runs.

End PipelineFacts.

(** ** More on the scoring engine *)

Module ScoringBounds.
Import ScoringEngine.
Local Open Scope Q_scope.












End ScoringBounds.

(** ** Theorems on the manipulation detector *)

Module ManipulationFacts.
Import ManipulationDetector.
Local Open Scope Q_scope.







End ManipulationFacts.

(** ** More on the chunk codec *)

Module ChunkMore.
Import ImageProcessor.






(** *** The order of the chunks *)




End ChunkMore.

(** ** Theorems on the image comparison *)

Module SimilarityFacts.
Import ScoringEngine Pinecone ImageProcessor Pipeline ScoringBounds.
Local Open Scope Q_scope.


End SimilarityFacts.

(** ** Theorems on the fence removal *)

Module FenceFacts.
Import Json VLMVerifier.

(** *** Lines *)







(** *** Prefixes and whitespace *)












End FenceFacts.

(** ** More on the evidence store *)

Module RoutingFacts.
Import Pinecone Routing.






End RoutingFacts.

(** ** More on [verify_proof] *)

Module VerifyFacts.
Import ScoringEngine Json VLMVerifier Pinecone ImageProcessor Pipeline.
Import PipelineFacts.

#[local] Hint Resolve quiet_lift quiet_mret quiet_throw quiet_fetch
  quiet_query quiet_try_fetch quiet_try_query quiet_catch : quiet.










End VerifyFacts.

Module ShapeFacts.
Import ScoringEngine Json VLMVerifier Pinecone ImageProcessor Pipeline.
Import PipelineFacts VerifyFacts ReportKeys.

#[local] Hint Resolve quiet_lift quiet_mret quiet_throw quiet_fetch
  quiet_query quiet_try_fetch quiet_try_query quiet_catch : quiet.



End ShapeFacts.

(** ** More on ingestion *)

Module IngestFacts.
Import ScoringEngine Json VLMVerifier Pinecone ImageProcessor Pipeline.
Import PipelineFacts.

#[local] Hint Resolve quiet_lift quiet_mret quiet_throw quiet_fetch
  quiet_query quiet_try_fetch quiet_try_query quiet_catch : quiet.

(** *** The chunk loop and its inverse *)






(** *** What the chunk loop of the ingestion calls leaves in the store *)







End IngestFacts.

(** ** The demo world again *)

Module RunFacts.
Import ScoringEngine Json VLMVerifier Pinecone ImageProcessor Pipeline.
Import PipelineFacts VerifyFacts ShapeFacts IngestFacts Demo.
Local Open Scope Q_scope.





End RunFacts.
